(** * mit-service: the inbox task queue, its worker and the health scorer

    A shallow embedding of the Go sources of the service:

    - [models]      internal/models/models.go
    - [metrics]     the metrics package ([MetricsSnapshot.GetHealthStatus])
    - [repository]  internal/repository (the in-memory [MockRepository] and the
                    queries of [PostgresRepository] over the [inbox_tasks] table)
    - [service]     the inbox producer ([Service]) and [InboxWorker]

    Logging and the recording of metrics are left out of the service and
    the worker; the goroutines and tickers that drive the worker are
    represented by the functions they run ([processTasks], [cleanupOldTasks],
    the body of a retry timer) and by the order in which these are applied.

    Go's [int]/[int64] are modelled as [Z] (with the 64-bit wrap-around written
    out where the code does arithmetic on stored counters), [float64] as the
    kernel's binary64 floats, [time.Time] as a number of nanoseconds, [error]
    as an optional message ([None] is [nil]); a Go map is a [gmap] together
    with the order in which one [range] statement visits its entries. *)

From Stdlib Require Import ZArith String List Floats Lia.
From stdpp Require Import base gmap strings list sorting.

Local Open Scope string_scope.
Local Open Scope Z_scope.

(** ** Go runtime conventions *)

(** A Go [error]: [nil] or a value with a message ([err.Error()]).  The worker
    compares errors by message, so the message is all that is kept. *)
Definition error := option string.

(** [fmt.Errorf("<prefix>: %w", err)]. *)
Definition wrapf (prefix : string) (msg : string) : string :=
  prefix +:+ ": " +:+ msg.

(** Two's-complement wrap-around of a 64-bit signed integer. *)
Definition wrap64 (z : Z) : Z := (z + 2 ^ 63) mod 2 ^ 64 - 2 ^ 63.

(** [time.Time] and [time.Duration], in nanoseconds. *)
Definition Time := Z.
Definition Hour : Z := 3600 * 1000000000.

(** [float64(n)] for an integer [n]: rounding to nearest, ties to even. *)
Definition float64_of_int (n : Z) : float :=
  SF2Prim (binary_normalize 53 1024 n 0 false).

(** [x > y] on [float64] (false when either side is NaN). *)
Definition fgt (x y : float) : bool := PrimFloat.ltb y x.

(** A call that returns [(value, error)]. *)
Inductive result (A : Type) :=
| Ok (a : A)
| Err (msg : string).
Arguments Ok {A} a.
Arguments Err {A} msg.

(** ** encoding/json

    The JSON library is taken as an interface: the decoded documents
    ([interface{}], [map[string]interface{}]), [json.Marshal] on a document,
    and [json.Marshal]/[json.Unmarshal] on the two payload shapes of
    models.go: [{id, value}] (insert and update) and [{id}] (delete). *)
Class JSON := {
  Document : Type;
  Marshal : Document -> result string;
  MarshalValuePayload : string -> Document -> result string;
  UnmarshalValuePayload : string -> result (string * Document);
  MarshalIDPayload : string -> result string;
  UnmarshalIDPayload : string -> result string
}.

(** [b, _ := json.Marshal(v)]: the bytes, [nil] when marshalling failed. *)
Definition bytes_of (r : result string) : string :=
  match r with Ok b => b | Err _ => "" end.

(** ** internal/models *)

Module models.

Definition TaskStatusPending := "pending".
Definition TaskStatusProcessing := "processing".
Definition TaskStatusCompleted := "completed".
Definition TaskStatusFailed := "failed".

Definition TaskOperationInsert := "insert".
Definition TaskOperationUpdate := "update".
Definition TaskOperationDelete := "delete".

(** [ErrInvalidTaskOperation = errors.New("invalid task operation")]. *)
Definition ErrInvalidTaskOperation : string := "invalid task operation".

(** [Record]. *)
Record Record_ `{JSON} := {
  Record_ID : string;
  Record_Value : Document
}.

(** [InsertRequest] and [UpdateRequest] have the same fields. *)
Record ValueRequest `{JSON} := {
  Request_ID : string;
  Request_Value : Document
}.

Record DeleteRequest := {
  DeleteRequest_ID : string
}.

(** [InboxTask]; [Payload] is the raw JSON text. *)
Record InboxTask := {
  ID : string;
  Operation : string;
  Payload : string;
  Status : string;
  CreatedAt : Time;
  UpdatedAt : Time;
  Retries : Z;
  Error : string
}.

Record TaskStats := {
  TotalTasks : Z;
  PendingTasks : Z;
  ProcessingTasks : Z;
  CompletedTasks : Z;
  FailedTasks : Z
}.

Record TasksListResponse := {
  Tasks : list InboxTask;
  Total : Z;
  Limit : Z;
  Offset : Z;
  Stats : option TaskStats
}.

End models.

(** ** The metrics package: health scoring *)

Module metrics.

Record MetricsSnapshot := {
  TotalRequests : Z;
  SuccessfulRequests : Z;
  FailedRequests : Z;
  ActiveConnections : Z;
  RequestsPerSecond : float;
  AvgResponseTime : float;
  TotalTasks : Z;
  CompletedTasks : Z;
  FailedTasksCount : Z;
  TasksPerSecond : float;
  AvgTaskTime : float;
  QueueDepth : Z;
  MaxQueueDepth : Z;
  Uptime : Z;
  GoroutineCount : Z;
  MemoryUsageMB : float
}.

Record HealthStatus := {
  Status : string;
  Score : Z;
  Issues : list string;
  Recommendations : list string
}.

(** [if status.Status != "critical" { status.Status = "warning" }]. *)
Definition warn (status : string) : string :=
  if negb (String.eqb status "critical") then "warning" else status.

(** The block "Check response time" of [GetHealthStatus]. *)
Definition checkResponseTime (s : MetricsSnapshot) (status : HealthStatus) : HealthStatus :=
  if fgt (AvgResponseTime s) 500 then
    {| Status := "critical"; Score := Score status - 40;
       Issues := (Issues status ++ ["Very high response time (>500ms)"])%list;
       Recommendations := (Recommendations status ++
         ["Consider scaling up the service or optimizing database queries"])%list |}
  else if fgt (AvgResponseTime s) 100 then
    {| Status := warn (Status status); Score := Score status - 20;
       Issues := (Issues status ++ ["High response time (>100ms)"])%list;
       Recommendations := (Recommendations status ++
         ["Monitor database performance and consider caching"])%list |}
  else status.

(** The block "Check queue depth". *)
Definition checkQueueDepth (s : MetricsSnapshot) (status : HealthStatus) : HealthStatus :=
  if QueueDepth s >? 500 then
    {| Status := "critical"; Score := Score status - 30;
       Issues := (Issues status ++ ["Very high queue depth (>500)"])%list;
       Recommendations := (Recommendations status ++
         ["Increase inbox worker count or check for processing bottlenecks"])%list |}
  else if QueueDepth s >? 100 then
    {| Status := warn (Status status); Score := Score status - 15;
       Issues := (Issues status ++ ["High queue depth (>100)"])%list;
       Recommendations := (Recommendations status ++
         ["Monitor task processing speed"])%list |}
  else status.

(** [float64(s.FailedRequests) / float64(s.TotalRequests) * 100]. *)
Definition errorRate (s : MetricsSnapshot) : float :=
  PrimFloat.mul
    (PrimFloat.div (float64_of_int (FailedRequests s)) (float64_of_int (TotalRequests s)))
    100.

(** The block "Check error rate", guarded by [s.TotalRequests > 0]. *)
Definition checkErrorRate (s : MetricsSnapshot) (status : HealthStatus) : HealthStatus :=
  if TotalRequests s >? 0 then
    if fgt (errorRate s) 5 then
      {| Status := "critical"; Score := Score status - 35;
         Issues := (Issues status ++ ["High error rate (>5%)"])%list;
         Recommendations := (Recommendations status ++
           ["Investigate application errors and system issues"])%list |}
    else if fgt (errorRate s) 1 then
      {| Status := warn (Status status); Score := Score status - 10;
         Issues := (Issues status ++ ["Elevated error rate (>1%)"])%list;
         Recommendations := (Recommendations status ++
           ["Monitor error logs for patterns"])%list |}
    else status
  else status.

(** The block "Check memory usage". *)
Definition checkMemoryUsage (s : MetricsSnapshot) (status : HealthStatus) : HealthStatus :=
  if fgt (MemoryUsageMB s) 1024 then
    {| Status := "critical"; Score := Score status - 25;
       Issues := (Issues status ++ ["Very high memory usage (>1GB)"])%list;
       Recommendations := (Recommendations status ++
         ["Check for memory leaks and consider scaling"])%list |}
  else if fgt (MemoryUsageMB s) 512 then
    {| Status := warn (Status status); Score := Score status - 10;
       Issues := (Issues status ++ ["High memory usage (>512MB)"])%list;
       Recommendations := (Recommendations status ++
         ["Monitor memory usage trends"])%list |}
  else status.

(** The block "Check goroutine count". *)
Definition checkGoroutineCount (s : MetricsSnapshot) (status : HealthStatus) : HealthStatus :=
  if GoroutineCount s >? 5000 then
    {| Status := "critical"; Score := Score status - 20;
       Issues := (Issues status ++ ["Very high goroutine count (>5000)"])%list;
       Recommendations := (Recommendations status ++
         ["Check for goroutine leaks"])%list |}
  else if GoroutineCount s >? 1000 then
    {| Status := warn (Status status); Score := Score status - 10;
       Issues := (Issues status ++ ["High goroutine count (>1000)"])%list;
       Recommendations := (Recommendations status ++
         ["Monitor goroutine usage"])%list |}
  else status.

(** The five blocks of [GetHealthStatus], in source order. *)
Definition checks : list (MetricsSnapshot -> HealthStatus -> HealthStatus) :=
  [checkResponseTime; checkQueueDepth; checkErrorRate; checkMemoryUsage;
   checkGoroutineCount].

Definition initialStatus : HealthStatus :=
  {| Status := "healthy"; Score := 100; Issues := []; Recommendations := [] |}.

(** [func (s *MetricsSnapshot) GetHealthStatus() *HealthStatus]. *)
Definition GetHealthStatus (s : MetricsSnapshot) : HealthStatus :=
  checkGoroutineCount s
    (checkMemoryUsage s
      (checkErrorRate s
        (checkQueueDepth s
          (checkResponseTime s initialStatus)))).

(** *** The threshold table of the specification *)

Inductive severity := Healthy | Warning | Critical.

Definition severity_name (v : severity) : string :=
  match v with
  | Healthy => "healthy"
  | Warning => "warning"
  | Critical => "critical"
  end.

Definition severity_rank (v : severity) : Z :=
  match v with Healthy => 0 | Warning => 1 | Critical => 2 end.

Definition severity_max (a b : severity) : severity :=
  if severity_rank a <? severity_rank b then b else a.

(** What a check does to the status string, by the tier its axis is in. *)
Definition escalate (v : severity) (status : string) : string :=
  match v with
  | Healthy => status
  | Warning => warn status
  | Critical => "critical"
  end.

(** Rank of a status string; the three names the scorer writes are ranked
    as their severities, anything else as [healthy]. *)
Definition status_rank (status : string) : Z :=
  if String.eqb status "critical" then 2
  else if String.eqb status "warning" then 1 else 0.

(** One row of the table: when the axis is above its warning and its
    critical threshold, and what each tier deducts. *)
Record axis := {
  above_warning : MetricsSnapshot -> bool;
  above_critical : MetricsSnapshot -> bool;
  warning_deduction : Z;
  critical_deduction : Z
}.

Definition response_time_axis : axis :=
  {| above_warning := fun s => fgt (AvgResponseTime s) 100;
     above_critical := fun s => fgt (AvgResponseTime s) 500;
     warning_deduction := 20; critical_deduction := 40 |}.

Definition queue_depth_axis : axis :=
  {| above_warning := fun s => QueueDepth s >? 100;
     above_critical := fun s => QueueDepth s >? 500;
     warning_deduction := 15; critical_deduction := 30 |}.

(** The error rate is defined once a request has been counted. *)
Definition error_rate_axis : axis :=
  {| above_warning := fun s => (TotalRequests s >? 0) && fgt (errorRate s) 1;
     above_critical := fun s => (TotalRequests s >? 0) && fgt (errorRate s) 5;
     warning_deduction := 10; critical_deduction := 35 |}.

Definition memory_axis : axis :=
  {| above_warning := fun s => fgt (MemoryUsageMB s) 512;
     above_critical := fun s => fgt (MemoryUsageMB s) 1024;
     warning_deduction := 10; critical_deduction := 25 |}.

Definition goroutine_axis : axis :=
  {| above_warning := fun s => GoroutineCount s >? 1000;
     above_critical := fun s => GoroutineCount s >? 5000;
     warning_deduction := 10; critical_deduction := 20 |}.

Definition table : list axis :=
  [response_time_axis; queue_depth_axis; error_rate_axis; memory_axis;
   goroutine_axis].

(** Only the larger breached tier of an axis fires. *)
Definition axis_tier (a : axis) (s : MetricsSnapshot) : severity :=
  if above_critical a s then Critical
  else if above_warning a s then Warning else Healthy.

Definition axis_deduction (a : axis) (s : MetricsSnapshot) : Z :=
  match axis_tier a s with
  | Healthy => 0
  | Warning => warning_deduction a
  | Critical => critical_deduction a
  end.

Definition table_score (s : MetricsSnapshot) : Z :=
  100 - foldr (fun a acc => axis_deduction a s + acc) 0 table.

Definition table_severity (s : MetricsSnapshot) : severity :=
  foldr (fun a acc => severity_max (axis_tier a s) acc) Healthy table.

End metrics.

(** ** internal/repository *)

Module repository.
Import models.

(** What the runtime supplies to one call: the clock ([time.Now()], SQL
    [NOW()]), a fresh identifier ([uuid.New().String()]), the order in
    which a [range] over the task map visits its entries, and the failure
    the database driver reports for the statement, if any. *)
Record Env := {
  now : Time;
  uuid : string;
  range : gmap string InboxTask -> list (string * InboxTask);
  driver_error : error
}.

(** A [range] visits every entry of the map once, in an order of its own. *)
Definition range_valid (env : Env) : Prop :=
  forall m, range env m ≡ₚ map_to_list m.

(** The task has the given status. *)
Definition has_status (status : string) (task : InboxTask) : Prop :=
  Status task = status.

#[global] Instance has_status_dec status task : Decision (has_status status task).
Proof. unfold has_status. apply _. Defined.

(** [RecordRepository], over the state [W] of the store behind it; every
    method returns the state it leaves. *)
Record RecordRepository `{JSON} (W : Type) := {
  Insert : Env -> W -> Record_ -> W * error;
  Update : Env -> W -> Record_ -> W * error;
  Delete : Env -> W -> string -> W * error;
  Get : Env -> W -> string -> W * result Record_
}.

(** [InboxRepository]. *)
Record InboxRepository (W : Type) := {
  CreateTask : Env -> W -> InboxTask -> W * error;
  GetPendingTasks : Env -> W -> Z -> W * result (list InboxTask);
  GetTasksByStatus : Env -> W -> string -> Z -> Z -> W * result (list InboxTask);
  GetAllTasks : Env -> W -> Z -> Z -> W * result (list InboxTask);
  GetTaskStats : Env -> W -> W * result TaskStats;
  UpdateTaskStatus : Env -> W -> string -> string -> string -> W * error;
  IncrementTaskRetries : Env -> W -> string -> W * error;
  DeleteCompletedTasks : Env -> W -> Z -> W * error
}.

(** [RepositoryManager]: both stores, here over one state. *)
Record RepositoryManager `{JSON} (W : Type) := {
  RecordRepo : RecordRepository W;
  InboxRepo : InboxRepository W
}.

Arguments Insert {_ _} _ _ _ _.
Arguments Update {_ _} _ _ _ _.
Arguments Delete {_ _} _ _ _ _.
Arguments Get {_ _} _ _ _ _.
Arguments CreateTask {_} _ _ _ _.
Arguments GetPendingTasks {_} _ _ _ _.
Arguments GetTasksByStatus {_} _ _ _ _ _ _.
Arguments GetAllTasks {_} _ _ _ _ _.
Arguments GetTaskStats {_} _ _ _.
Arguments UpdateTaskStatus {_} _ _ _ _ _ _.
Arguments IncrementTaskRetries {_} _ _ _ _.
Arguments DeleteCompletedTasks {_} _ _ _ _.
Arguments RecordRepo {_ _} _.
Arguments InboxRepo {_ _} _.

(** *** The in-memory repository (factory.go) *)

Record MockRepository `{JSON} := {
  records : gmap string Record_;
  inboxTasks : gmap string InboxTask
}.

Definition already_exists (id : string) : string :=
  "record with id '" +:+ id +:+ "' already exists".

Definition not_found (id : string) : string :=
  "record with id '" +:+ id +:+ "' not found".

Definition task_not_found (id : string) : string :=
  "task with id '" +:+ id +:+ "' not found".

Module Mock.
Section mock.
Context `{JSON}.

Definition NewMockRepository : MockRepository :=
  {| records := ∅; inboxTasks := ∅ |}.

Definition Insert (env : Env) (r : MockRepository) (record : Record_)
  : MockRepository * error :=
  match records r !! Record_ID record with
  | Some _ => (r, Some (already_exists (Record_ID record)))
  | None =>
    let recordCopy :=
      {| Record_ID := Record_ID record; Record_Value := Record_Value record |} in
    ({| records := <[Record_ID record := recordCopy]> (records r);
        inboxTasks := inboxTasks r |}, None)
  end.

Definition Update (env : Env) (r : MockRepository) (record : Record_)
  : MockRepository * error :=
  match records r !! Record_ID record with
  | None => (r, Some (not_found (Record_ID record)))
  | Some _ =>
    let recordCopy :=
      {| Record_ID := Record_ID record; Record_Value := Record_Value record |} in
    ({| records := <[Record_ID record := recordCopy]> (records r);
        inboxTasks := inboxTasks r |}, None)
  end.

Definition Delete (env : Env) (r : MockRepository) (id : string)
  : MockRepository * error :=
  match records r !! id with
  | None => (r, Some (not_found id))
  | Some _ =>
    ({| records := delete id (records r); inboxTasks := inboxTasks r |}, None)
  end.

Definition Get (env : Env) (r : MockRepository) (id : string)
  : MockRepository * result Record_ :=
  match records r !! id with
  | None => (r, Err (not_found id))
  | Some record =>
    (r, Ok {| Record_ID := Record_ID record;
              Record_Value := Record_Value record |})
  end.

(** [copyTask], and the copies written out in [CreateTask] and
    [GetPendingTasks]. *)
Definition copyTask (task : InboxTask) : InboxTask :=
  {| ID := ID task; Operation := Operation task; Payload := Payload task;
     Status := Status task; CreatedAt := CreatedAt task;
     UpdatedAt := UpdatedAt task; Retries := Retries task;
     Error := Error task |}.

Definition CreateTask (env : Env) (r : MockRepository) (task : InboxTask)
  : MockRepository * error :=
  ({| records := records r;
      inboxTasks := <[ID task := copyTask task]> (inboxTasks r) |}, None).

(** The loop of [GetPendingTasks]: [pendingTasks] and [count] after the
    [range] has visited [entries]. *)
Definition collectPending (limit : Z) (entries : list (string * InboxTask))
  : list InboxTask * Z :=
  foldl (fun '(pendingTasks, count) '(_, task) =>
           if String.eqb (Status task) TaskStatusPending && (count <? limit)
           then ((pendingTasks ++ [copyTask task])%list, count + 1)
           else (pendingTasks, count))
        ([], 0) entries.

Definition GetPendingTasks (env : Env) (r : MockRepository) (limit : Z)
  : MockRepository * result (list InboxTask) :=
  (r, Ok (fst (collectPending limit (range env (inboxTasks r))))).

(** "Sort by created_at DESC": the two nested loops that swap
    [tasks[i]] and [tasks[j]] when [tasks[i]] was created before
    [tasks[j]]. *)
Definition sortNewestFirst (tasks : list InboxTask) : list InboxTask :=
  let n := length tasks in
  foldl (fun a i =>
           foldl (fun a j =>
                    match a !! i, a !! j with
                    | Some x, Some y =>
                      if CreatedAt x <? CreatedAt y
                      then <[i := y]> (<[j := x]> a) else a
                    | _, _ => a
                    end)
                 a (seq (S i) (n - S i)))
        tasks (seq 0 (n - 1)).

(** "Apply pagination".  [tasks[start:end]] panics when [start] is
    negative or above [end]; the panic is kept as an error value. *)
Definition paginate (tasks : list InboxTask) (limit offset : Z)
  : result (list InboxTask) :=
  let len := Z.of_nat (length tasks) in
  let start := offset in
  if start >=? len then Ok []
  else
    let end_ := wrap64 (start + limit) in
    let end_ := if end_ >? len then len else end_ in
    if (start <? 0) || (end_ <? start)
    then Err "runtime error: slice bounds out of range"
    else Ok (take (Z.to_nat (end_ - start)) (drop (Z.to_nat start) tasks)).

Definition GetTasksByStatus (env : Env) (r : MockRepository) (status : string)
  (limit offset : Z) : MockRepository * result (list InboxTask) :=
  let filteredTasks :=
    foldl (fun acc '(_, task) =>
             if String.eqb (Status task) status
             then (acc ++ [copyTask task])%list else acc)
          [] (range env (inboxTasks r)) in
  (r, paginate (sortNewestFirst filteredTasks) limit offset).

Definition GetAllTasks (env : Env) (r : MockRepository) (limit offset : Z)
  : MockRepository * result (list InboxTask) :=
  let allTasks :=
    foldl (fun acc '(_, task) => (acc ++ [copyTask task])%list)
          [] (range env (inboxTasks r)) in
  (r, paginate (sortNewestFirst allTasks) limit offset).

Definition GetTaskStats (env : Env) (r : MockRepository)
  : MockRepository * result TaskStats :=
  (r, Ok (foldl (fun stats '(_, task) =>
               if String.eqb (Status task) TaskStatusPending then
                 {| TotalTasks := TotalTasks stats;
                    PendingTasks := PendingTasks stats + 1;
                    ProcessingTasks := ProcessingTasks stats;
                    CompletedTasks := CompletedTasks stats;
                    FailedTasks := FailedTasks stats |}
               else if String.eqb (Status task) TaskStatusProcessing then
                 {| TotalTasks := TotalTasks stats;
                    PendingTasks := PendingTasks stats;
                    ProcessingTasks := ProcessingTasks stats + 1;
                    CompletedTasks := CompletedTasks stats;
                    FailedTasks := FailedTasks stats |}
               else if String.eqb (Status task) TaskStatusCompleted then
                 {| TotalTasks := TotalTasks stats;
                    PendingTasks := PendingTasks stats;
                    ProcessingTasks := ProcessingTasks stats;
                    CompletedTasks := CompletedTasks stats + 1;
                    FailedTasks := FailedTasks stats |}
               else if String.eqb (Status task) TaskStatusFailed then
                 {| TotalTasks := TotalTasks stats;
                    PendingTasks := PendingTasks stats;
                    ProcessingTasks := ProcessingTasks stats;
                    CompletedTasks := CompletedTasks stats;
                    FailedTasks := FailedTasks stats + 1 |}
               else stats)
            {| TotalTasks := Z.of_nat (size (inboxTasks r));
               PendingTasks := 0; ProcessingTasks := 0;
               CompletedTasks := 0; FailedTasks := 0 |}
            (range env (inboxTasks r)))).

Definition UpdateTaskStatus (env : Env) (r : MockRepository)
  (taskID status errorMsg : string) : MockRepository * error :=
  match inboxTasks r !! taskID with
  | None => (r, Some (task_not_found taskID))
  | Some task =>
    let task' :=
      {| ID := ID task; Operation := Operation task; Payload := Payload task;
         Status := status; CreatedAt := CreatedAt task;
         UpdatedAt := now env; Retries := Retries task;
         Error := errorMsg |} in
    ({| records := records r;
        inboxTasks := <[taskID := task']> (inboxTasks r) |}, None)
  end.

Definition IncrementTaskRetries (env : Env) (r : MockRepository)
  (taskID : string) : MockRepository * error :=
  match inboxTasks r !! taskID with
  | None => (r, Some (task_not_found taskID))
  | Some task =>
    let task' :=
      {| ID := ID task; Operation := Operation task; Payload := Payload task;
         Status := Status task; CreatedAt := CreatedAt task;
         UpdatedAt := now env; Retries := wrap64 (Retries task + 1);
         Error := Error task |} in
    ({| records := records r;
        inboxTasks := <[taskID := task']> (inboxTasks r) |}, None)
  end.

(** [time.Now().Add(-time.Duration(olderThanHours) * time.Hour)]. *)
Definition cutoffTime (env : Env) (olderThanHours : Z) : Time :=
  now env + wrap64 (wrap64 (- olderThanHours) * Hour).

(** The condition under which the loop of [DeleteCompletedTasks]
    deletes the entry it visits. *)
Definition expired (cutoff : Time) (task : InboxTask) : bool :=
  (String.eqb (Status task) TaskStatusCompleted
   || String.eqb (Status task) TaskStatusFailed)
  && (UpdatedAt task <? cutoff).

Definition DeleteCompletedTasks (env : Env) (r : MockRepository)
  (olderThanHours : Z) : MockRepository * error :=
  let cutoff := cutoffTime env olderThanHours in
  ({| records := records r;
      inboxTasks :=
        foldl (fun tasks '(id, task) =>
                 if expired cutoff task then delete id tasks else tasks)
              (inboxTasks r) (range env (inboxTasks r)) |}, None).

Definition manager : RepositoryManager MockRepository :=
  {| RecordRepo :=
       {| repository.Insert := Insert; repository.Update := Update;
          repository.Delete := Delete; repository.Get := Get |};
     InboxRepo :=
       {| repository.CreateTask := CreateTask;
          repository.GetPendingTasks := GetPendingTasks;
          repository.GetTasksByStatus := GetTasksByStatus;
          repository.GetAllTasks := GetAllTasks;
          repository.GetTaskStats := GetTaskStats;
          repository.UpdateTaskStatus := UpdateTaskStatus;
          repository.IncrementTaskRetries := IncrementTaskRetries;
          repository.DeleteCompletedTasks := DeleteCompletedTasks |} |}.

End mock.
End Mock.

(** *** The PostgreSQL repository (postgres.go): the pending-task query *)

Module Postgres.

(** [ORDER BY created_at ASC]. *)
Definition created_le (a b : InboxTask) : Prop := CreatedAt a <= CreatedAt b.

#[global] Instance created_le_dec a b : Decision (created_le a b).
Proof. unfold created_le. apply _. Defined.

(** [GetPendingTasks]: one [SELECT ... WHERE status = 'pending' ORDER BY
    created_at ASC LIMIT limit] over the rows of [inbox_tasks] (given in
    the order the scan visits them); the database rejects a negative
    [LIMIT].  The table is returned as the statement leaves it. *)
Definition GetPendingTasks (env : Env) (inbox_tasks : list InboxTask) (limit : Z)
  : list InboxTask * result (list InboxTask) :=
  match driver_error env with
  | Some err => (inbox_tasks, Err (wrapf "failed to query pending tasks" err))
  | None =>
    if limit <? 0
    then (inbox_tasks,
          Err (wrapf "failed to query pending tasks"
                     "pq: LIMIT must not be negative"))
    else (inbox_tasks,
          Ok (take (Z.to_nat limit)
                   (merge_sort created_le
                      (filter (has_status TaskStatusPending) inbox_tasks))))
  end.

End Postgres.

(** *** A repository that records the calls made on it *)

Inductive Call `{JSON} :=
| CallInsert (record : Record_)
| CallUpdate (record : Record_)
| CallDelete (id : string)
| CallGet (id : string)
| CallCreateTask (task : InboxTask)
| CallGetPendingTasks (limit : Z)
| CallGetTasksByStatus (status : string) (limit offset : Z)
| CallGetAllTasks (limit offset : Z)
| CallGetTaskStats
| CallUpdateTaskStatus (taskID status errorMsg : string)
| CallIncrementTaskRetries (taskID : string)
| CallDeleteCompletedTasks (olderThanHours : Z).

(** The calls that go to the [RecordRepository]. *)
Definition is_record_call `{JSON} (c : Call) : bool :=
  match c with
  | CallInsert _ | CallUpdate _ | CallDelete _ | CallGet _ => true
  | _ => false
  end.

Section traced.
Context `{JSON} {W : Type}.

(** Run a method on the store and append the call to the log. *)
Definition logged {A : Type} (c : Call) (run : W -> W * A)
  (wl : W * list Call) : (W * list Call) * A :=
  let '(w', a) := run (fst wl) in ((w', (snd wl ++ [c])%list), a).

Definition traced (repo : RepositoryManager W)
  : RepositoryManager (W * list Call) :=
  {| RecordRepo :=
       {| Insert := fun env wl record =>
            logged (CallInsert record)
              (fun w => Insert (RecordRepo repo) env w record) wl;
          Update := fun env wl record =>
            logged (CallUpdate record)
              (fun w => Update (RecordRepo repo) env w record) wl;
          Delete := fun env wl id =>
            logged (CallDelete id)
              (fun w => Delete (RecordRepo repo) env w id) wl;
          Get := fun env wl id =>
            logged (CallGet id)
              (fun w => Get (RecordRepo repo) env w id) wl |};
     InboxRepo :=
       {| CreateTask := fun env wl task =>
            logged (CallCreateTask task)
              (fun w => CreateTask (InboxRepo repo) env w task) wl;
          GetPendingTasks := fun env wl limit =>
            logged (CallGetPendingTasks limit)
              (fun w => GetPendingTasks (InboxRepo repo) env w limit) wl;
          GetTasksByStatus := fun env wl status limit offset =>
            logged (CallGetTasksByStatus status limit offset)
              (fun w => GetTasksByStatus (InboxRepo repo) env w status limit offset) wl;
          GetAllTasks := fun env wl limit offset =>
            logged (CallGetAllTasks limit offset)
              (fun w => GetAllTasks (InboxRepo repo) env w limit offset) wl;
          GetTaskStats := fun env wl =>
            logged CallGetTaskStats
              (fun w => GetTaskStats (InboxRepo repo) env w) wl;
          UpdateTaskStatus := fun env wl taskID status errorMsg =>
            logged (CallUpdateTaskStatus taskID status errorMsg)
              (fun w => UpdateTaskStatus (InboxRepo repo) env w taskID status errorMsg) wl;
          IncrementTaskRetries := fun env wl taskID =>
            logged (CallIncrementTaskRetries taskID)
              (fun w => IncrementTaskRetries (InboxRepo repo) env w taskID) wl;
          DeleteCompletedTasks := fun env wl olderThanHours =>
            logged (CallDeleteCompletedTasks olderThanHours)
              (fun w => DeleteCompletedTasks (InboxRepo repo) env w olderThanHours) wl
       |} |}.

End traced.

End repository.


(** ** internal/service *)

Module service.
Import models repository.

(** The worker's configuration (the fields of [InboxWorker] set by
    [NewInboxWorker]); durations in nanoseconds. *)
Record InboxWorker := {
  workerCount : Z;
  batchSize : Z;
  pollInterval : Z;
  maxRetries : Z;
  retryDelay : Z
}.

(** The goroutine [handleTaskError] starts to reschedule a task: it sleeps
    for [retryDelay] and then sets the task back to [pending] with the
    message of the error. *)
Record RetryTimer := {
  timer_task : string;
  timer_error : string;
  timer_delay : Z
}.

(** [fmt.Errorf("record with id '%s' already exists but with different value", id)]. *)
Definition different_value (id : string) : string :=
  "record with id '" +:+ id +:+ "' already exists but with different value".

(** The task a producer operation hands to [CreateTask]. *)
Definition newTask (env : Env) (operation payload : string) : InboxTask :=
  {| ID := uuid env; Operation := operation; Payload := payload;
     Status := TaskStatusPending; CreatedAt := now env; UpdatedAt := now env;
     Retries := 0; Error := "" |}.

Section service.
Context `{JSON} {W : Type}.
Variable repo : RepositoryManager W.

(** *** The inbox producer (service.go) *)

(** [Service.Insert]. *)
Definition Insert (env : Env) (w : W) (req : ValueRequest) : W * error :=
  match MarshalValuePayload (Request_ID req) (Request_Value req) with
  | Err err => (w, Some (wrapf "failed to marshal insert payload" err))
  | Ok payload =>
    let task :=
      {| ID := uuid env; Operation := TaskOperationInsert; Payload := payload;
         Status := TaskStatusPending; CreatedAt := now env; UpdatedAt := now env;
         Retries := 0; Error := "" |} in
    match CreateTask (InboxRepo repo) env w task with
    | (w', Some err) => (w', Some (wrapf "failed to create insert task" err))
    | (w', None) => (w', None)
    end
  end.

(** [Service.Update]. *)
Definition Update (env : Env) (w : W) (req : ValueRequest) : W * error :=
  match MarshalValuePayload (Request_ID req) (Request_Value req) with
  | Err err => (w, Some (wrapf "failed to marshal update payload" err))
  | Ok payload =>
    let task :=
      {| ID := uuid env; Operation := TaskOperationUpdate; Payload := payload;
         Status := TaskStatusPending; CreatedAt := now env; UpdatedAt := now env;
         Retries := 0; Error := "" |} in
    match CreateTask (InboxRepo repo) env w task with
    | (w', Some err) => (w', Some (wrapf "failed to create update task" err))
    | (w', None) => (w', None)
    end
  end.

(** [Service.Delete]. *)
Definition Delete (env : Env) (w : W) (req : DeleteRequest) : W * error :=
  match MarshalIDPayload (DeleteRequest_ID req) with
  | Err err => (w, Some (wrapf "failed to marshal delete payload" err))
  | Ok payload =>
    let task :=
      {| ID := uuid env; Operation := TaskOperationDelete; Payload := payload;
         Status := TaskStatusPending; CreatedAt := now env; UpdatedAt := now env;
         Retries := 0; Error := "" |} in
    match CreateTask (InboxRepo repo) env w task with
    | (w', Some err) => (w', Some (wrapf "failed to create delete task" err))
    | (w', None) => (w', None)
    end
  end.

(** [Service.Get]. *)
Definition Get (env : Env) (w : W) (id : string) : W * result Record_ :=
  match repository.Get (RecordRepo repo) env w id with
  | (w', Err err) => (w', Err (wrapf "failed to get record" err))
  | (w', Ok record) => (w', Ok record)
  end.

(** [Service.GetTasks]. *)
Definition GetTasks (env : Env) (w : W) (status : string) (limit offset : Z)
  : W * result TasksListResponse :=
  let limit := if limit <=? 0 then 50 else limit in
  let limit := if limit >? 100 then 100 else limit in
  let offset := if offset <? 0 then 0 else offset in
  let '(w1, listed) :=
    if String.eqb status ""
    then GetAllTasks (InboxRepo repo) env w limit offset
    else GetTasksByStatus (InboxRepo repo) env w status limit offset in
  match listed with
  | Err err => (w1, Err (wrapf "failed to get tasks" err))
  | Ok tasks =>
    let '(w2, stats) := GetTaskStats (InboxRepo repo) env w1 in
    (w2, Ok {| Tasks := tasks;
               Total := Z.of_nat (length tasks);
               Limit := limit;
               Offset := offset;
               Stats := match stats with Ok st => Some st | Err _ => None end |})
  end.

(** *** The worker (inbox_worker.go) *)

(** [processInsertTask]. *)
Definition processInsertTask (env : Env) (w : W) (payload : string) : W * error :=
  match UnmarshalValuePayload payload with
  | Err err => (w, Some (wrapf "failed to unmarshal insert payload" err))
  | Ok (id, value) =>
    let record := {| Record_ID := id; Record_Value := value |} in
    match repository.Insert (RecordRepo repo) env w record with
    | (w1, None) => (w1, None)
    | (w1, Some err) =>
      if String.eqb err (already_exists (Record_ID record)) then
        match repository.Get (RecordRepo repo) env w1 (Record_ID record) with
        | (w2, Err getErr) =>
          (w2, Some (wrapf "failed to verify existing record" getErr))
        | (w2, Ok existingRecord) =>
          let existingValueJSON := bytes_of (Marshal (Record_Value existingRecord)) in
          let newValueJSON := bytes_of (Marshal (Record_Value record)) in
          if String.eqb existingValueJSON newValueJSON
          then (w2, None)
          else (w2, Some (different_value (Record_ID record)))
        end
      else (w1, Some (wrapf "failed to insert record" err))
    end
  end.

(** [processUpdateTask]. *)
Definition processUpdateTask (env : Env) (w : W) (payload : string) : W * error :=
  match UnmarshalValuePayload payload with
  | Err err => (w, Some (wrapf "failed to unmarshal update payload" err))
  | Ok (id, value) =>
    let record := {| Record_ID := id; Record_Value := value |} in
    match repository.Update (RecordRepo repo) env w record with
    | (w1, Some err) => (w1, Some (wrapf "failed to update record" err))
    | (w1, None) => (w1, None)
    end
  end.

(** [processDeleteTask]. *)
Definition processDeleteTask (env : Env) (w : W) (payload : string) : W * error :=
  match UnmarshalIDPayload payload with
  | Err err => (w, Some (wrapf "failed to unmarshal delete payload" err))
  | Ok id =>
    match repository.Delete (RecordRepo repo) env w id with
    | (w1, Some err) => (w1, Some (wrapf "failed to delete record" err))
    | (w1, None) => (w1, None)
    end
  end.

Variable wk : InboxWorker.

(** [handleTaskError]: the store it leaves and the retry goroutine it
    starts, if any.  [task] is the copy the fetch handed out; failures of
    the two repository calls are only logged. *)
Definition handleTaskError (env : Env) (w : W) (task : InboxTask)
  (processErr : string) : W * option RetryTimer :=
  let '(w1, _) := IncrementTaskRetries (InboxRepo repo) env w (ID task) in
  if Retries task >=? maxRetries wk then
    let '(w2, _) :=
      UpdateTaskStatus (InboxRepo repo) env w1 (ID task) TaskStatusFailed processErr in
    (w2, None)
  else
    (w1, Some {| timer_task := ID task; timer_error := processErr;
                 timer_delay := retryDelay wk |}).

(** The body of the retry goroutine once its sleep is over. *)
Definition fireRetry (env : Env) (w : W) (t : RetryTimer) : W :=
  fst (UpdateTaskStatus (InboxRepo repo) env w (timer_task t) TaskStatusPending
         (timer_error t)).

(** The [switch task.Operation] of [processTask]. *)
Definition applyTask (env : Env) (w : W) (task : InboxTask) : W * error :=
  if String.eqb (Operation task) TaskOperationInsert then
    processInsertTask env w (Payload task)
  else if String.eqb (Operation task) TaskOperationUpdate then
    processUpdateTask env w (Payload task)
  else if String.eqb (Operation task) TaskOperationDelete then
    processDeleteTask env w (Payload task)
  else (w, Some ErrInvalidTaskOperation).

(** [processTask] (metrics and logging left out). *)
Definition processTask (env : Env) (w : W) (task : InboxTask)
  : W * option RetryTimer :=
  let '(w1, processErr) := applyTask env w task in
  match processErr with
  | Some err => handleTaskError env w1 task err
  | None =>
    let '(w2, _) :=
      UpdateTaskStatus (InboxRepo repo) env w1 (ID task) TaskStatusCompleted "" in
    (w2, None)
  end.

(** [processTasks]: one tick of a poller; the retry goroutines it started
    are returned in the order they were started. *)
Definition processTasks (env : Env) (w : W) : W * list RetryTimer :=
  match GetPendingTasks (InboxRepo repo) env w (batchSize wk) with
  | (w1, Err _) => (w1, [])
  | (w1, Ok tasks) =>
    foldl (fun '(w, timers) task =>
             let '(w', t) := processTask env w task in
             (w', (timers ++ option_list t)%list))
          (w1, []) tasks
  end.

(** [cleanupOldTasks]; the statistics are only logged. *)
Definition cleanupOldTasks (env : Env) (w : W) : W :=
  let '(w1, _) := GetTaskStats (InboxRepo repo) env w in
  match DeleteCompletedTasks (InboxRepo repo) env w1 24 with
  | (w2, Some _) => w2
  | (w2, None) => fst (GetTaskStats (InboxRepo repo) env w2)
  end.

(** A tick of one poller followed, before the next tick, by the retry
    goroutines it started ([env'] is what the runtime supplies to them). *)
Definition tick (w : W) (envs : Env * Env) : W :=
  let '(w1, timers) := processTasks (fst envs) w in
  foldl (fireRetry (snd envs)) w1 timers.

(** Successive ticks, one pair of environments each. *)
Definition ticks (w : W) (envs : list (Env * Env)) : W :=
  foldl tick w envs.

End service.

(** *** Descriptions used in the statements about the service *)

Section descriptions.
Context `{JSON}.

(** What a producer operation [run], whose payload marshals to [marshalled],
    does on a repository that logs its calls: the calls it adds are not calls
    to the record store; it returns [nil] exactly when the payload marshalled
    and [CreateTask] on the new pending task returned [nil]; it calls
    [CreateTask] once, with that task, when the payload marshalled, and
    nothing otherwise. *)
Definition producer_spec {W : Type} (repo : RepositoryManager W)
  (operation : string) (marshalled : result string)
  (run : Env -> W * list Call -> (W * list Call) * error) : Prop :=
  forall (env : Env) (w : W) (log : list Call),
    exists calls : list Call,
      snd (fst (run env (w, log))) = (log ++ calls)%list
      /\ Forall (fun c => is_record_call c = false) calls
      /\ (snd (run env (w, log)) = None
          <-> exists payload,
                marshalled = Ok payload
                /\ snd (CreateTask (InboxRepo repo) env w (newTask env operation payload))
                   = None)
      /\ (forall payload,
            marshalled = Ok payload ->
            calls = [CallCreateTask (newTask env operation payload)]
            /\ fst (fst (run env (w, log)))
               = fst (CreateTask (InboxRepo repo) env w (newTask env operation payload)))
      /\ (forall err,
            marshalled = Err err ->
            calls = [] /\ fst (fst (run env (w, log))) = w).

(** The store holds the single task [t], under its own identifier. *)
Definition holds_only (r : MockRepository) (t : InboxTask) : Prop :=
  inboxTasks r = {[ID t := t]}.

(** [t'] is [t] with retry counter [k], the given status and last error:
    same identifier, operation, payload and creation time. *)
Definition retried (t t' : InboxTask) (k : Z) (status err : string) : Prop :=
  ID t' = ID t /\ Operation t' = Operation t /\ Payload t' = Payload t
  /\ CreatedAt t' = CreatedAt t
  /\ Retries t' = k /\ Status t' = status /\ Error t' = err.

(** Applying the work of [t] fails with [e], and leaves the store as it was,
    on every store with the records of [r]. *)
Definition always_fails (r : MockRepository) (t : InboxTask) (e : string) : Prop :=
  forall env r' t',
    records r' = records r -> Operation t' = Operation t -> Payload t' = Payload t ->
    applyTask Mock.manager env r' t' = (r', Some e).

End descriptions.
End service.


(** ** Concrete data for examples *)

Module examples.
Import models repository service.

(** The double quote character, as a string. *)
Definition dq : string := String (Ascii.ascii_of_nat 34) EmptyString.

(** [s] without the prefix [p], when it starts with it. *)
Definition strip_prefix (p s : string) : option string :=
  if String.prefix p s
  then Some (String.substring (String.length p) (String.length s - String.length p) s)
  else None.

(** [s] split at its first double quote. *)
Fixpoint split_at_quote (s : string) : option (string * string) :=
  match s with
  | EmptyString => None
  | String c s' =>
    if Ascii.eqb c (Ascii.ascii_of_nat 34) then Some (EmptyString, s')
    else match split_at_quote s' with
         | Some (a, b) => Some (String c a, b)
         | None => None
         end
  end.

(** [s] without its last character, when that is [c]. *)
Definition strip_last (c : Ascii.ascii) (s : string) : option string :=
  match String.get (String.length s - 1) s with
  | Some c' =>
    if Ascii.eqb c c' then Some (String.substring 0 (String.length s - 1) s) else None
  | None => None
  end.

(** A JSON codec over documents kept as their JSON text: a document
    marshals to itself, a payload reads [{"id":"<id>","value":<document>}]
    or [{"id":"<id>"}]. *)
#[global] Instance text_json : JSON := {|
  Document := string;
  Marshal := fun d => Ok d;
  MarshalValuePayload := fun id value =>
    Ok ("{" +:+ dq +:+ "id" +:+ dq +:+ ":" +:+ dq +:+ id +:+ dq +:+ ","
        +:+ dq +:+ "value" +:+ dq +:+ ":" +:+ value +:+ "}");
  UnmarshalValuePayload := fun payload =>
    match strip_prefix ("{" +:+ dq +:+ "id" +:+ dq +:+ ":" +:+ dq) payload with
    | Some rest =>
      match split_at_quote rest with
      | Some (id, rest) =>
        match strip_prefix ("," +:+ dq +:+ "value" +:+ dq +:+ ":") rest with
        | Some rest =>
          match strip_last (Ascii.ascii_of_nat 125) rest with
          | Some value => Ok (id, value)
          | None => Err "unexpected end of JSON input"
          end
        | None => Err "invalid character"
        end
      | None => Err "unexpected end of JSON input"
      end
    | None => Err "invalid character"
    end;
  MarshalIDPayload := fun id =>
    Ok ("{" +:+ dq +:+ "id" +:+ dq +:+ ":" +:+ dq +:+ id +:+ dq +:+ "}");
  UnmarshalIDPayload := fun payload =>
    match strip_prefix ("{" +:+ dq +:+ "id" +:+ dq +:+ ":" +:+ dq) payload with
    | Some rest =>
      match split_at_quote rest with
      | Some (id, "}") => Ok id
      | _ => Err "invalid character"
      end
    | None => Err "invalid character"
    end
|}.

(** An environment whose [range] visits the entries in the order of
    [map_to_list], and one that visits them in the opposite order. *)
Definition env_at (t : Time) : Env :=
  {| now := t; uuid := "task-1"; range := map_to_list; driver_error := None |}.

Definition env_rev_at (t : Time) : Env :=
  {| now := t; uuid := "task-1"; range := fun m => reverse (map_to_list m);
     driver_error := None |}.

(** A pending task. *)
Definition pending_task (id op payload : string) (created : Time) : InboxTask :=
  {| ID := id; Operation := op; Payload := payload; Status := TaskStatusPending;
     CreatedAt := created; UpdatedAt := created; Retries := 0; Error := "" |}.

(** The default worker configuration of [LoadConfig]. *)
Definition default_worker : InboxWorker :=
  {| workerCount := 5; batchSize := 10; pollInterval := 1000000000;
     maxRetries := 3; retryDelay := 5000000000 |}.

(** A store with two pending tasks; the one under key [a] is the newer. *)
Definition two_pending : MockRepository :=
  {| records := ∅;
     inboxTasks := <["a" := pending_task "a" "insert" "" 2]>
                     (<["b" := pending_task "b" "insert" "" 1]> ∅) |}.

(** A store, and a table, with one pending task. *)
Definition one_pending : MockRepository :=
  {| records := ∅;
     inboxTasks := <["t1" := pending_task "t1" "insert" "" 1]> ∅ |}.

Definition one_pending_row : list InboxTask :=
  [pending_task "t1" "insert" "" 1].

(** A store with an old completed task, an old pending one and a recent
    completed one, seen two days after the old ones were written. *)
Definition old_and_new : MockRepository :=
  {| records := ∅;
     inboxTasks :=
       <["old" := {| ID := "old"; Operation := "insert"; Payload := "";
                     Status := TaskStatusCompleted; CreatedAt := 0;
                     UpdatedAt := 0; Retries := 0; Error := "" |}]>
         (<["waiting" := pending_task "waiting" "insert" "" 0]>
            (<["new" := {| ID := "new"; Operation := "insert"; Payload := "";
                           Status := TaskStatusCompleted; CreatedAt := 0;
                           UpdatedAt := 47 * Hour; Retries := 0; Error := "" |}]> ∅)) |}.

(** The payload of a task on record [u1] with the empty document. *)
Definition u1_payload : string :=
  Eval vm_compute in bytes_of (MarshalValuePayload "u1" "{}").

(** A store holding one update task, two failed attempts behind it, and the
    copy of it a poller fetched. *)
Definition twice_retried : InboxTask :=
  {| ID := "t1"; Operation := TaskOperationUpdate; Payload := u1_payload;
     Status := TaskStatusPending; CreatedAt := 1; UpdatedAt := 4; Retries := 2;
     Error := "failed to update record: record with id 'u1' not found" |}.

Definition retried_twice : MockRepository :=
  {| records := ∅; inboxTasks := <["t1" := twice_retried]> ∅ |}.

(** A store holding only an update task for a record that is not there, and
    a store holding only a task with an operation the worker does not know. *)
Definition lone_update : MockRepository :=
  {| records := ∅;
     inboxTasks := {["t1" := pending_task "t1" TaskOperationUpdate u1_payload 1]} |}.

Definition lone_unknown : MockRepository :=
  {| records := ∅;
     inboxTasks := {["t1" := pending_task "t1" "merge" u1_payload 1]} |}.

(** The record [u1], and a store with it. *)
Definition record_u1 : Record_ :=
  {| Record_ID := "u1"; Record_Value := "{}" |}.

Definition with_u1 : MockRepository :=
  {| records := {["u1" := record_u1]}; inboxTasks := ∅ |}.

(** A request to insert the record [u2], and the payload it marshals to. *)
Definition request_u2 : ValueRequest :=
  {| Request_ID := "u2"; Request_Value := "{}" |}.

Definition u2_payload : string :=
  Eval vm_compute in bytes_of (MarshalValuePayload "u2" "{}").

(** A store with the record [u1] and one pending task that deletes it. *)
Definition delete_u1_payload : string :=
  Eval vm_compute in bytes_of (MarshalIDPayload "u1").

Definition delete_u1_task : InboxTask :=
  pending_task "t1" TaskOperationDelete delete_u1_payload 1.

Definition with_delete_u1 : MockRepository :=
  {| records := {["u1" := record_u1]};
     inboxTasks := {["t1" := delete_u1_task]} |}.

(** Four ticks, the retry timers of each firing before the next. *)
Definition four_ticks : list (Env * Env) :=
  [(env_at 10, env_at 15); (env_at 20, env_at 25); (env_at 30, env_at 35);
   (env_at 40, env_at 45)].

(** A snapshot with the given average response time, queue depth, failed
    and total requests, memory and goroutine count. *)
Definition snapshot (avg : float) (queue failed total : Z) (mem : float)
  (goroutines : Z) : metrics.MetricsSnapshot :=
  {| metrics.TotalRequests := total; metrics.SuccessfulRequests := total - failed;
     metrics.FailedRequests := failed; metrics.ActiveConnections := 0;
     metrics.RequestsPerSecond := 0; metrics.AvgResponseTime := avg;
     metrics.TotalTasks := 0; metrics.CompletedTasks := 0;
     metrics.FailedTasksCount := 0; metrics.TasksPerSecond := 0;
     metrics.AvgTaskTime := 0; metrics.QueueDepth := queue;
     metrics.MaxQueueDepth := queue; metrics.Uptime := 0;
     metrics.GoroutineCount := goroutines; metrics.MemoryUsageMB := mem |}.

(** A snapshot with every axis above its critical threshold. *)
Definition overloaded : metrics.MetricsSnapshot :=
  {| metrics.TotalRequests := 100; metrics.SuccessfulRequests := 90;
     metrics.FailedRequests := 10; metrics.ActiveConnections := 0;
     metrics.RequestsPerSecond := 0; metrics.AvgResponseTime := 501;
     metrics.TotalTasks := 0; metrics.CompletedTasks := 0;
     metrics.FailedTasksCount := 0; metrics.TasksPerSecond := 0;
     metrics.AvgTaskTime := 0; metrics.QueueDepth := 501;
     metrics.MaxQueueDepth := 501; metrics.Uptime := 0;
     metrics.GoroutineCount := 5001; metrics.MemoryUsageMB := 1025 |}.

End examples.


(** * Properties *)

(** ** Health scoring *)

Section health_facts.
Import metrics.

Ltac by_tier a :=
  intros; unfold a, axis_deduction, axis_tier; cbn;
  repeat match goal with
         | |- context [if ?b then _ else _] => destruct b; cbn
         end;
  try reflexivity; try lia.

(** Each check deducts what the table gives for its axis and escalates the
    status by the tier of that axis. *)
Lemma checkResponseTime_axis s st :
  Score (checkResponseTime s st) = Score st - axis_deduction response_time_axis s
  /\ Status (checkResponseTime s st)
     = escalate (axis_tier response_time_axis s) (Status st).
Proof. split; by_tier checkResponseTime. Qed.

Lemma checkQueueDepth_axis s st :
  Score (checkQueueDepth s st) = Score st - axis_deduction queue_depth_axis s
  /\ Status (checkQueueDepth s st)
     = escalate (axis_tier queue_depth_axis s) (Status st).
Proof. split; by_tier checkQueueDepth. Qed.

Lemma checkErrorRate_axis s st :
  Score (checkErrorRate s st) = Score st - axis_deduction error_rate_axis s
  /\ Status (checkErrorRate s st)
     = escalate (axis_tier error_rate_axis s) (Status st).
Proof. split; by_tier checkErrorRate. Qed.

Lemma checkMemoryUsage_axis s st :
  Score (checkMemoryUsage s st) = Score st - axis_deduction memory_axis s
  /\ Status (checkMemoryUsage s st)
     = escalate (axis_tier memory_axis s) (Status st).
Proof. split; by_tier checkMemoryUsage. Qed.

Lemma checkGoroutineCount_axis s st :
  Score (checkGoroutineCount s st) = Score st - axis_deduction goroutine_axis s
  /\ Status (checkGoroutineCount s st)
     = escalate (axis_tier goroutine_axis s) (Status st).
Proof. split; by_tier checkGoroutineCount. Qed.

Lemma escalate_name (v u : severity) :
  escalate v (severity_name u) = severity_name (severity_max v u).
Proof. destruct v, u; reflexivity. Qed.

Lemma escalate_rank (v : severity) (status : string) :
  status_rank status <= status_rank (escalate v status).
Proof.
  destruct v; cbn [escalate]; [lia| |].
  - unfold warn, status_rank.
    destruct (String.eqb status "critical") eqn:E; cbn.
    + rewrite E. lia.
    + destruct (String.eqb status "warning"); lia.
  - unfold status_rank.
    destruct (String.eqb status "critical"); [cbn; lia|].
    destruct (String.eqb status "warning"); cbn; lia.
Qed.

Lemma GetHealthStatus_score (s : MetricsSnapshot) :
  Score (GetHealthStatus s) = table_score s.
Proof.
  unfold GetHealthStatus, table_score, table.
  rewrite (proj1 (checkGoroutineCount_axis _ _)), (proj1 (checkMemoryUsage_axis _ _)),
    (proj1 (checkErrorRate_axis _ _)), (proj1 (checkQueueDepth_axis _ _)),
    (proj1 (checkResponseTime_axis _ _)).
  cbn [foldr initialStatus Score]. lia.
Qed.

Lemma GetHealthStatus_status (s : MetricsSnapshot) :
  Status (GetHealthStatus s) = severity_name (table_severity s).
Proof.
  unfold GetHealthStatus, table_severity, table.
  rewrite (proj2 (checkGoroutineCount_axis _ _)), (proj2 (checkMemoryUsage_axis _ _)),
    (proj2 (checkErrorRate_axis _ _)), (proj2 (checkQueueDepth_axis _ _)),
    (proj2 (checkResponseTime_axis _ _)).
  cbn [foldr initialStatus Status].
  change "healthy" with (severity_name Healthy).
  rewrite !escalate_name.
  f_equal.
  generalize (axis_tier response_time_axis s) (axis_tier queue_depth_axis s)
    (axis_tier error_rate_axis s) (axis_tier memory_axis s)
    (axis_tier goroutine_axis s).
  intros [] [] [] [] []; reflexivity.
Qed.

(** C5.  [GetHealthStatus] starts from score 100 and status [healthy] and
    runs the five checks in turn; the score it returns is 100 minus, for each
    axis of the threshold table (response time >100/>500 deducting 20/40,
    queue depth >100/>500 deducting 15/30, error rate in percent >1/>5
    deducting 10/35 and looked at once a request has been counted,
    memory >512/>1024 deducting 10/25, goroutines >1000/>5000 deducting
    10/20), the deduction of the larger tier the axis has breached; the status
    is the name of the highest tier breached; and no check lowers the rank of
    the status it is given. *)
Theorem GetHealthStatus_table (s : MetricsSnapshot) :
  GetHealthStatus s = foldl (fun st check => check s st) initialStatus checks
  /\ Score initialStatus = 100 /\ Status initialStatus = "healthy"
  /\ Score (GetHealthStatus s) = table_score s
  /\ Status (GetHealthStatus s) = severity_name (table_severity s)
  /\ (forall st, Forall (fun check =>
        status_rank (Status st) <= status_rank (Status (check s st))) checks).
Proof.
  split; [reflexivity|].
  split; [reflexivity|].
  split; [reflexivity|].
  split; [apply GetHealthStatus_score|].
  split; [apply GetHealthStatus_status|].
  intros st. unfold checks.
  repeat apply List.Forall_cons; try apply List.Forall_nil.
  - rewrite (proj2 (checkResponseTime_axis _ _)). apply escalate_rank.
  - rewrite (proj2 (checkQueueDepth_axis _ _)). apply escalate_rank.
  - rewrite (proj2 (checkErrorRate_axis _ _)). apply escalate_rank.
  - rewrite (proj2 (checkMemoryUsage_axis _ _)). apply escalate_rank.
  - rewrite (proj2 (checkGoroutineCount_axis _ _)). apply escalate_rank.
Qed.

(** C9.  The score is not clamped at zero: it always lies between -50 and
    100, it is -50 (so negative) for a snapshot with all five axes above
    their critical thresholds, and the status is [healthy] exactly when the
    score is 100. *)
Theorem GetHealthStatus_score_range :
  (forall s : MetricsSnapshot,
     -50 <= Score (GetHealthStatus s) <= 100
     /\ (Status (GetHealthStatus s) = "healthy" <-> Score (GetHealthStatus s) = 100))
  /\ 100 - 40 - 30 - 35 - 25 - 20 = -50
  /\ Score (GetHealthStatus examples.overloaded) = -50
  /\ exists s : MetricsSnapshot, Score (GetHealthStatus s) < 0.
Proof.
  split; [|split; [reflexivity|split; [vm_compute; reflexivity|]]].
  - intros s. rewrite GetHealthStatus_score, GetHealthStatus_status.
    unfold table_score, table_severity, table. cbn [foldr].
    unfold axis_deduction.
    generalize (axis_tier response_time_axis s) (axis_tier queue_depth_axis s)
      (axis_tier error_rate_axis s) (axis_tier memory_axis s)
      (axis_tier goroutine_axis s).
    intros [] [] [] [] []; cbn; (split; [lia|split; intros E; first [reflexivity | discriminate E]]).
  - exists examples.overloaded. vm_compute. reflexivity.
Qed.

(** The thresholds at their boundaries: a value at a threshold does not
    breach it, the next one does. *)
Example GetHealthStatus_boundaries :
  map (fun s => (Score (GetHealthStatus s), Status (GetHealthStatus s)))
    [examples.snapshot 100 0 0 0 0 0; examples.snapshot 100.5 0 0 0 0 0;
     examples.snapshot 500 0 0 0 0 0; examples.snapshot 500.5 0 0 0 0 0;
     examples.snapshot 0 100 0 0 0 0; examples.snapshot 0 101 0 0 0 0;
     examples.snapshot 0 500 0 0 0 0; examples.snapshot 0 501 0 0 0 0;
     examples.snapshot 0 0 1 100 0 0; examples.snapshot 0 0 2 100 0 0;
     examples.snapshot 0 0 5 100 0 0; examples.snapshot 0 0 6 100 0 0;
     examples.snapshot 0 0 1 0 0 0;
     examples.snapshot 0 0 0 0 512 0; examples.snapshot 0 0 0 0 512.5 0;
     examples.snapshot 0 0 0 0 1024 0; examples.snapshot 0 0 0 0 1024.5 0;
     examples.snapshot 0 0 0 0 0 1000; examples.snapshot 0 0 0 0 0 1001;
     examples.snapshot 0 0 0 0 0 5000; examples.snapshot 0 0 0 0 0 5001;
     examples.snapshot 101 101 0 0 0 0; examples.snapshot 501 101 0 0 0 0]
  = [(100, "healthy"); (80, "warning"); (80, "warning"); (60, "critical");
     (100, "healthy"); (85, "warning"); (85, "warning"); (70, "critical");
     (100, "healthy"); (90, "warning"); (90, "warning"); (65, "critical");
     (100, "healthy");
     (100, "healthy"); (90, "warning"); (90, "warning"); (75, "critical");
     (100, "healthy"); (90, "warning"); (90, "warning"); (80, "critical");
     (65, "warning"); (45, "critical")].
Proof. vm_compute. reflexivity. Qed.

End health_facts.

(** ** The repositories *)

Section repository_facts.
Import models repository.
Context `{JSON}.

Lemma copyTask_id (task : InboxTask) : Mock.copyTask task = task.
Proof. destruct task; reflexivity. Qed.

Lemma eqb_has_status (status : string) (task : InboxTask) :
  String.eqb (Status task) status = bool_decide (has_status status task).
Proof.
  unfold has_status. destruct (String.eqb_spec (Status task) status) as [E|E].
  - symmetry. apply bool_decide_eq_true. exact E.
  - symmetry. apply bool_decide_eq_false. exact E.
Qed.

(** The tasks the loop of [GetPendingTasks] has collected, given what it
    had collected before the entries were visited. *)
Lemma collectPending_from (limit : Z) (entries : list (string * InboxTask))
  (acc : list InboxTask) :
  foldl (fun '(pendingTasks, count) '(_, task) =>
           if String.eqb (Status task) TaskStatusPending && (count <? limit)
           then ((pendingTasks ++ [Mock.copyTask task])%list, count + 1)
           else (pendingTasks, count))
        (acc, Z.of_nat (length acc)) entries
  = let res := (acc ++ take (Z.to_nat limit - length acc)
                         (filter (has_status TaskStatusPending) entries.*2))%list in
    (res, Z.of_nat (length res)).
Proof.
  revert acc. induction entries as [|[id task] entries IH]; intros acc; cbn [foldl].
  - cbn. rewrite take_nil, app_nil_r. reflexivity.
  - rewrite eqb_has_status, fmap_cons, filter_cons. cbn [snd].
    destruct (decide (has_status TaskStatusPending task)) as [Hp|Hp].
    + rewrite (bool_decide_eq_true_2 _ Hp). cbn [andb].
      destruct (Z.ltb_spec (Z.of_nat (length acc)) limit) as [Hlt|Hge].
      * replace (Z.of_nat (length acc) + 1)
          with (Z.of_nat (length (acc ++ [Mock.copyTask task]))).
        2:{ rewrite length_app. cbn. lia. }
        rewrite IH. cbn zeta.
        replace (Z.to_nat limit - length acc)%nat
          with (S (Z.to_nat limit - length (acc ++ [Mock.copyTask task])))%nat.
        2:{ rewrite length_app. cbn. lia. }
        cbn [take]. rewrite copyTask_id, <- app_assoc. reflexivity.
      * rewrite IH. cbn zeta.
        replace (Z.to_nat limit - length acc)%nat with 0%nat by lia.
        reflexivity.
    + rewrite (bool_decide_eq_false_2 _ Hp). cbn [andb]. apply IH.
Qed.

Lemma Mock_GetPendingTasks_eq (env : Env) (r : MockRepository) (limit : Z) :
  Mock.GetPendingTasks env r limit
  = (r, Ok (take (Z.to_nat limit)
              (filter (has_status TaskStatusPending) (range env (inboxTasks r)).*2))).
Proof.
  unfold Mock.GetPendingTasks, Mock.collectPending.
  rewrite (collectPending_from limit _ []). cbn.
  rewrite Nat.sub_0_r. reflexivity.
Qed.


Lemma elem_of_range (env : Env) (m : gmap string InboxTask) (task : InboxTask) :
  range_valid env -> task ∈ (range env m).*2 -> exists id, m !! id = Some task.
Proof.
  intros Hv Hin. apply list_elem_of_fmap in Hin as [[id t] [-> Hin]].
  exists id. rewrite (Hv m) in Hin. apply elem_of_map_to_list in Hin. exact Hin.
Qed.

#[local] Instance created_le_total : base.Total Postgres.created_le.
Proof. intros a b. unfold Postgres.created_le. lia. Qed.

#[local] Instance created_le_trans : Transitive Postgres.created_le.
Proof. intros a b c. unfold Postgres.created_le. lia. Qed.

Lemma StronglySorted_take {A} (R : relation A) (n : nat) (l : list A) :
  StronglySorted R l -> StronglySorted R (take n l).
Proof.
  intros Hs. rewrite <- (take_drop n l) in Hs.
  apply StronglySorted_app_1_l in Hs. exact Hs.
Qed.

Lemma Postgres_GetPendingTasks_ok (env : Env) (tbl tasks : list InboxTask) (limit : Z) :
  snd (Postgres.GetPendingTasks env tbl limit) = Ok tasks ->
  0 <= limit
  /\ tasks = take (Z.to_nat limit)
               (merge_sort Postgres.created_le (filter (has_status TaskStatusPending) tbl)).
Proof.
  unfold Postgres.GetPendingTasks.
  destruct (driver_error env); [discriminate|].
  destruct (Z.ltb_spec limit 0); [discriminate|].
  cbn. intros [= <-]. split; [lia|reflexivity].
Qed.

(** C7 (amended).  The pending-task fetch returns at most [limit] tasks (none
    for a negative limit), each of them a task of the store with status
    [pending].  The in-memory repository returns the first [limit] pending
    tasks in the order its map iteration visits them; the PostgreSQL query
    returns them ordered by [created_at] ascending, and no pending row it
    leaves out is older than a row it returns. *)
Theorem GetPendingTasks_bounded_pending :
  (forall (env : Env) (r : MockRepository) (limit : Z) (tasks : list InboxTask),
     range_valid env ->
     snd (Mock.GetPendingTasks env r limit) = Ok tasks ->
     Z.of_nat (length tasks) <= Z.max 0 limit
     /\ Forall (fun task => Status task = TaskStatusPending
                            /\ exists id, inboxTasks r !! id = Some task) tasks
     /\ tasks = take (Z.to_nat limit)
                  (filter (has_status TaskStatusPending) (range env (inboxTasks r)).*2))
  /\ (forall (env : Env) (inbox_tasks tasks : list InboxTask) (limit : Z),
        snd (Postgres.GetPendingTasks env inbox_tasks limit) = Ok tasks ->
        Z.of_nat (length tasks) <= Z.max 0 limit
        /\ Forall (fun task => Status task = TaskStatusPending /\ task ∈ inbox_tasks) tasks
        /\ StronglySorted Postgres.created_le tasks
        /\ (forall i j task other,
              tasks !! i = Some task ->
              merge_sort Postgres.created_le
                (filter (has_status TaskStatusPending) inbox_tasks) !! j = Some other ->
              (length tasks <= j)%nat ->
              CreatedAt task <= CreatedAt other)).
Proof.
  split.
  - intros env r limit tasks Hv. rewrite Mock_GetPendingTasks_eq. cbn. intros [= <-].
    split; [|split; [|reflexivity]].
    + rewrite length_take. lia.
    + apply Forall_forall. intros task Hin.
      apply elem_of_take in Hin as (i & Hi & _).
      apply list_elem_of_lookup_2 in Hi. apply list_elem_of_filter in Hi as [Hp Hin].
      split; [exact Hp|]. eapply elem_of_range; eauto.
  - intros env tbl tasks limit Hok.
    apply Postgres_GetPendingTasks_ok in Hok as [Hl ->].
    pose proof (StronglySorted_merge_sort Postgres.created_le
                  (filter (has_status TaskStatusPending) tbl)) as Hs.
    set (sorted := merge_sort Postgres.created_le _) in *.
    split; [|split; [|split]].
    + rewrite length_take. lia.
    + apply Forall_forall. intros task Hin.
      apply elem_of_take in Hin as (i & Hi & _).
      apply list_elem_of_lookup_2 in Hi. unfold sorted in Hi.
      rewrite merge_sort_Permutation in Hi.
      apply list_elem_of_filter in Hi as [Hp Hin]. split; assumption.
    + apply StronglySorted_take. exact Hs.
    + intros i j task other Hi Hj Hlen.
      rewrite lookup_take_Some in Hi. destruct Hi as [Hi Hlt].
      rewrite length_take in Hlen.
      assert (Hij : (i < j)%nat).
      { apply lookup_lt_Some in Hj. lia. }
      rewrite <- (take_drop j sorted) in Hs.
      apply StronglySorted_app_1_elem_of with (x1 := task) (x2 := other) in Hs.
      * exact Hs.
      * apply list_elem_of_lookup. exists i. rewrite lookup_take_Some. split; [exact Hi|lia].
      * apply list_elem_of_lookup. exists 0%nat. rewrite lookup_drop, Nat.add_0_r. exact Hj.
Qed.


(** A loop that deletes the visited entries satisfying [P] leaves, under a
    key, nothing if one of the visited entries under it satisfies [P], and
    what was there otherwise. *)
Lemma foldl_delete_lookup (P : InboxTask -> bool)
  (entries : list (string * InboxTask)) (m : gmap string InboxTask) (id : string) :
  foldl (fun tasks '(id, task) => if P task then delete id tasks else tasks) m entries !! id
  = if existsb (fun '(k, task) => bool_decide (k = id) && P task) entries
    then None else m !! id.
Proof.
  revert m. induction entries as [|[k task] entries IH]; intros m; cbn [foldl existsb].
  - reflexivity.
  - rewrite IH. destruct (existsb _ entries); [rewrite orb_true_r; reflexivity|].
    rewrite orb_false_r.
    destruct (decide (k = id)) as [->|Hne].
    + rewrite bool_decide_eq_true_2 by reflexivity. cbn [andb].
      destruct (P task); [apply lookup_delete_eq|reflexivity].
    + rewrite bool_decide_eq_false_2 by exact Hne. cbn [andb].
      destruct (P task); [apply lookup_delete_ne; exact Hne|reflexivity].
Qed.

Lemma Mock_DeleteCompletedTasks_lookup (env : Env) (r : MockRepository)
  (olderThanHours : Z) (id : string) :
  range_valid env ->
  inboxTasks (fst (Mock.DeleteCompletedTasks env r olderThanHours)) !! id
  = match inboxTasks r !! id with
    | Some task =>
      if Mock.expired (Mock.cutoffTime env olderThanHours) task then None else Some task
    | None => None
    end.
Proof.
  intros Hv. unfold Mock.DeleteCompletedTasks. cbn [fst inboxTasks].
  rewrite foldl_delete_lookup.
  set (P := Mock.expired _).
  destruct (existsb _ _) eqn:Hex.
  - apply existsb_exists in Hex as [[k task] [Hin Hk]].
    apply andb_true_iff in Hk as [Hk HP]. apply bool_decide_eq_true in Hk as ->.
    apply list_elem_of_In in Hin. rewrite (Hv _) in Hin.
    apply elem_of_map_to_list in Hin. rewrite Hin, HP. reflexivity.
  - destruct (inboxTasks r !! id) as [task|] eqn:Hl; [|reflexivity].
    destruct (P task) eqn:HP; [|reflexivity].
    exfalso. apply not_true_iff_false in Hex. apply Hex.
    apply existsb_exists. exists (id, task). split.
    + apply list_elem_of_In. rewrite (Hv _). apply elem_of_map_to_list. exact Hl.
    + rewrite bool_decide_eq_true_2 by reflexivity. exact HP.
Qed.

Lemma wrap64_small (z : Z) : - 2 ^ 63 <= z < 2 ^ 63 -> wrap64 z = z.
Proof.
  intros Hz. unfold wrap64.
  rewrite Z.mod_small; lia.
Qed.

Lemma cutoffTime_24 (env : Env) : Mock.cutoffTime env 24 = now env - 24 * Hour.
Proof.
  unfold Mock.cutoffTime.
  rewrite (wrap64_small (Z.opp 24)) by lia.
  rewrite wrap64_small by (unfold Hour; lia).
  lia.
Qed.

Lemma expired_iff (cutoff : Time) (task : InboxTask) :
  Mock.expired cutoff task = true
  <-> (Status task = TaskStatusCompleted \/ Status task = TaskStatusFailed)
      /\ UpdatedAt task < cutoff.
Proof.
  unfold Mock.expired.
  rewrite andb_true_iff, orb_true_iff, !String.eqb_eq, Z.ltb_lt. reflexivity.
Qed.

(** C6.  A cleanup run over the in-memory repository leaves the records
    alone and keeps a task exactly when it is not both terminal ([completed]
    or [failed]) and last updated more than 24 hours before the run: every
    such task is deleted, and every task that is newer, or [pending], or
    [processing], is retained. *)
Theorem cleanupOldTasks_deletes_expired (env : Env) (r : MockRepository) :
  range_valid env ->
  records (service.cleanupOldTasks Mock.manager env r) = records r
  /\ forall (id : string) (task : InboxTask),
       inboxTasks (service.cleanupOldTasks Mock.manager env r) !! id = Some task
       <-> inboxTasks r !! id = Some task
           /\ ~ ((Status task = TaskStatusCompleted \/ Status task = TaskStatusFailed)
                 /\ UpdatedAt task < now env - 24 * Hour).
Proof.
  intros Hv. unfold service.cleanupOldTasks. cbn.
  split; [reflexivity|]. intros id task.
  pose proof (Mock_DeleteCompletedTasks_lookup env r 24 id Hv) as Hl.
  cbn in Hl. rewrite Hl. rewrite cutoffTime_24, <- expired_iff.
  destruct (inboxTasks r !! id) as [t|]; [|split; [discriminate|intros [? _]; discriminate]].
  clear Hl. destruct (Mock.expired _ t) eqn:He.
  - split; [discriminate|]. intros [[= <-] Hn]. exfalso. apply Hn. exact He.
  - split.
    + intros [= <-]. split; [reflexivity|]. rewrite He. discriminate.
    + intros [[= <-] _]. reflexivity.
Qed.

End repository_facts.

(** ** The repositories on concrete stores *)

Section repository_examples.
Import models repository examples.

Lemma range_valid_env_at (t : Time) : range_valid (env_at t).
Proof. intros m. reflexivity. Qed.

(** C7, counterexample: the in-memory repository returns the newer of two
    pending tasks before the older one; and for the limit -1 it returns no
    task, which is not at most -1 tasks. *)
Lemma GetPendingTasks_mock_unordered :
  range_valid (env_at 0)
  /\ snd (Mock.GetPendingTasks (env_at 0) two_pending 10)
     = Ok [pending_task "a" "insert" "" 2; pending_task "b" "insert" "" 1]
  /\ ~ Sorted Postgres.created_le
         [pending_task "a" "insert" "" 2; pending_task "b" "insert" "" 1]
  /\ snd (Mock.GetPendingTasks (env_at 0) two_pending (-1)) = Ok []
  /\ ~ Z.of_nat (length (@nil InboxTask)) <= -1.
Proof.
  split; [apply range_valid_env_at|].
  split; [vm_compute; reflexivity|].
  split; [|split; [vm_compute; reflexivity|cbn; lia]].
  intros Hs. apply Sorted_inv in Hs as [_ Hhd]. apply HdRel_inv in Hhd.
  unfold Postgres.created_le in Hhd. cbn in Hhd. lia.
Qed.

Lemma GetPendingTasks_bounded_pending_witness :
  (Z.of_nat (length [pending_task "a" "insert" "" 2; pending_task "b" "insert" "" 1])
     <= Z.max 0 10
   /\ Forall (fun task => Status task = TaskStatusPending
                          /\ exists id, inboxTasks two_pending !! id = Some task)
             [pending_task "a" "insert" "" 2; pending_task "b" "insert" "" 1]
   /\ [pending_task "a" "insert" "" 2; pending_task "b" "insert" "" 1]
      = take (Z.to_nat 10)
          (filter (has_status TaskStatusPending)
             (range (env_at 0) (inboxTasks two_pending)).*2))
  /\ StronglySorted Postgres.created_le [pending_task "t1" "insert" "" 1].
Proof.
  split.
  - apply (proj1 GetPendingTasks_bounded_pending (env_at 0) two_pending 10).
    + apply range_valid_env_at.
    + vm_compute. reflexivity.
  - apply (proj2 GetPendingTasks_bounded_pending (env_at 0) one_pending_row
             [pending_task "t1" "insert" "" 1] 10).
    vm_compute. reflexivity.
Defined.

Lemma cleanupOldTasks_deletes_expired_witness :
  records (service.cleanupOldTasks Mock.manager (env_at (48 * Hour)) old_and_new)
  = records old_and_new
  /\ forall (id : string) (task : InboxTask),
       inboxTasks (service.cleanupOldTasks Mock.manager (env_at (48 * Hour)) old_and_new)
         !! id = Some task
       <-> inboxTasks old_and_new !! id = Some task
           /\ ~ ((Status task = TaskStatusCompleted \/ Status task = TaskStatusFailed)
                 /\ UpdatedAt task < now (env_at (48 * Hour)) - 24 * Hour).
Proof.
  apply (cleanupOldTasks_deletes_expired (env_at (48 * Hour)) old_and_new).
  apply range_valid_env_at.
Defined.

(** The sweep of the example store: the old completed task is gone, the old
    pending task and the recent completed one are kept. *)
Example cleanupOldTasks_example :
  dom (inboxTasks (service.cleanupOldTasks Mock.manager (env_at (48 * Hour)) old_and_new))
  = {["waiting"; "new"]}.
Proof. vm_compute. reflexivity. Qed.

(** C1 (what the code does).  Neither repository changes the store in
    [GetPendingTasks]: the tasks it returns stay [pending], and a second fetch
    from the store the first one leaves returns the same task again. *)
Theorem GetPendingTasks_leaves_tasks_pending :
  (forall (J : JSON) (env : Env) (r : MockRepository) (limit : Z),
     fst (Mock.GetPendingTasks env r limit) = r)
  /\ (forall (env : Env) (inbox_tasks : list InboxTask) (limit : Z),
        fst (Postgres.GetPendingTasks env inbox_tasks limit) = inbox_tasks)
  /\ snd (Mock.GetPendingTasks (env_at 0) one_pending 10)
     = Ok [pending_task "t1" "insert" "" 1]
  /\ snd (Mock.GetPendingTasks (env_at 1)
            (fst (Mock.GetPendingTasks (env_at 0) one_pending 10)) 10)
     = Ok [pending_task "t1" "insert" "" 1]
  /\ snd (Postgres.GetPendingTasks (env_at 0) one_pending_row 10)
     = Ok [pending_task "t1" "insert" "" 1]
  /\ snd (Postgres.GetPendingTasks (env_at 1)
            (fst (Postgres.GetPendingTasks (env_at 0) one_pending_row 10)) 10)
     = Ok [pending_task "t1" "insert" "" 1].
Proof.
  split; [reflexivity|].
  split.
  { intros env tbl limit. unfold Postgres.GetPendingTasks.
    destruct (driver_error env); [reflexivity|].
    destruct (limit <? 0); reflexivity. }
  repeat split; vm_compute; reflexivity.
Qed.

End repository_examples.

(** ** The service and the worker, over any repository *)

Section service_facts.
Import models repository service.
Context `{JSON} {W : Type}.
Variable repo : RepositoryManager W.

Lemma append_inj_l (p s1 s2 : string) : p +:+ s1 = p +:+ s2 -> s1 = s2.
Proof.
  induction p as [|c p IH]; cbn; [auto|].
  intros [= E]. auto.
Qed.

Lemma different_value_distinct (id : string) :
  different_value id <> already_exists id
  /\ different_value id <> ErrInvalidTaskOperation
  /\ forall prefix msg,
       prefix = "failed to unmarshal insert payload"
       \/ prefix = "failed to verify existing record"
       \/ prefix = "failed to insert record" ->
       different_value id <> wrapf prefix msg.
Proof.
  unfold different_value, already_exists, wrapf.
  split; [|split].
  - intros E. apply append_inj_l, append_inj_l in E. discriminate E.
  - discriminate.
  - intros prefix msg [-> | [-> | ->]]; discriminate.
Qed.

(** C3.  When the payload of an insert task decodes, the record store's
    [Insert] reports the duplicate key and [Get] returns the existing
    record, [processInsertTask] compares the marshalled bytes of the existing
    value with those of the new one: equal bytes give success, unequal bytes
    give the error [different_value], which is none of the other errors of
    the function, nor the duplicate-key or invalid-operation error. *)
Theorem processInsertTask_duplicate_key
  (env : Env) (w w1 w2 : W) (payload id : string) (value : Document)
  (existingRecord : Record_) :
  UnmarshalValuePayload payload = Ok (id, value) ->
  repository.Insert (RecordRepo repo) env w {| Record_ID := id; Record_Value := value |}
    = (w1, Some (already_exists id)) ->
  repository.Get (RecordRepo repo) env w1 id = (w2, Ok existingRecord) ->
  (bytes_of (Marshal (Record_Value existingRecord)) = bytes_of (Marshal value) ->
   processInsertTask repo env w payload = (w2, None))
  /\ (bytes_of (Marshal (Record_Value existingRecord)) <> bytes_of (Marshal value) ->
      processInsertTask repo env w payload = (w2, Some (different_value id)))
  /\ different_value id <> already_exists id
  /\ different_value id <> ErrInvalidTaskOperation
  /\ (forall msg, different_value id <> wrapf "failed to unmarshal insert payload" msg)
  /\ (forall msg, different_value id <> wrapf "failed to verify existing record" msg)
  /\ (forall msg, different_value id <> wrapf "failed to insert record" msg).
Proof.
  intros Hdec Hins Hget.
  unfold processInsertTask. rewrite Hdec. cbn [Record_ID Record_Value].
  rewrite Hins, String.eqb_refl, Hget.
  destruct (different_value_distinct id) as (Hd1 & Hd2 & Hd3).
  split; [|split]; [| |repeat split; auto].
  - intros ->. rewrite String.eqb_refl. reflexivity.
  - intros Hne. apply String.eqb_neq in Hne. rewrite Hne. reflexivity.
Qed.

(** The three producer operations have the same shape. *)
Lemma producer_spec_intro (operation : string) (marshalled : result string)
  (p1 p2 : string) (run : Env -> W * list Call -> (W * list Call) * error) :
  (forall env wl,
     run env wl
     = match marshalled with
       | Err err => (wl, Some (wrapf p1 err))
       | Ok payload =>
         match CreateTask (InboxRepo (traced repo)) env wl (newTask env operation payload) with
         | (wl', Some err) => (wl', Some (wrapf p2 err))
         | (wl', None) => (wl', None)
         end
       end) ->
  producer_spec repo operation marshalled run.
Proof.
  intros Hrun env w log. rewrite Hrun. clear Hrun.
  destruct marshalled as [payload|err].
  - exists [CallCreateTask (newTask env operation payload)].
    cbn. unfold logged. cbn.
    destruct (CreateTask (InboxRepo repo) env w (newTask env operation payload))
      as [w' [e|]] eqn:Hc; cbn.
    + split; [reflexivity|]. split; [repeat constructor|].
      split; [split; [discriminate|]|].
      * intros (p & [= <-] & Hn). rewrite Hc in Hn. discriminate Hn.
      * split; [|discriminate]. intros p [= <-]. rewrite Hc. split; reflexivity.
    + split; [reflexivity|]. split; [repeat constructor|].
      split; [split; [|reflexivity]|].
      * intros _. exists payload. rewrite Hc. split; reflexivity.
      * split; [|discriminate]. intros p [= <-]. rewrite Hc. split; reflexivity.
  - exists []. cbn. rewrite app_nil_r.
    split; [reflexivity|]. split; [constructor|].
    split; [split; [discriminate|intros (p & Hp & _); discriminate Hp]|].
    split; [discriminate|]. intros e _. split; reflexivity.
Qed.

(** C4.  [Insert], [Update] and [Delete] of the service build a task with
    status [pending] and retries 0 around the marshalled payload and hand it
    to [CreateTask] of the inbox repository, the only repository call they
    make (none when marshalling fails, never one to the record store); they
    return [nil] exactly when marshalling and [CreateTask] both succeeded. *)
Theorem producer_only_enqueues :
  (forall req : ValueRequest,
     producer_spec repo TaskOperationInsert
       (MarshalValuePayload (Request_ID req) (Request_Value req))
       (fun env wl => service.Insert (traced repo) env wl req))
  /\ (forall req : ValueRequest,
        producer_spec repo TaskOperationUpdate
          (MarshalValuePayload (Request_ID req) (Request_Value req))
          (fun env wl => service.Update (traced repo) env wl req))
  /\ (forall req : DeleteRequest,
        producer_spec repo TaskOperationDelete
          (MarshalIDPayload (DeleteRequest_ID req))
          (fun env wl => service.Delete (traced repo) env wl req))
  /\ (forall env operation payload,
        Status (newTask env operation payload) = TaskStatusPending
        /\ Retries (newTask env operation payload) = 0
        /\ Operation (newTask env operation payload) = operation
        /\ Payload (newTask env operation payload) = payload).
Proof.
  split; [|split; [|split]].
  - intros req.
    apply (producer_spec_intro _ _ "failed to marshal insert payload"
             "failed to create insert task").
    intros env wl. reflexivity.
  - intros req.
    apply (producer_spec_intro _ _ "failed to marshal update payload"
             "failed to create update task").
    intros env wl. reflexivity.
  - intros req.
    apply (producer_spec_intro _ _ "failed to marshal delete payload"
             "failed to create delete task").
    intros env wl. reflexivity.
  - intros env operation payload. repeat split; reflexivity.
Qed.

(** The limit and offset [GetTasks] goes on with. *)
Lemma GetTasks_effective (limit offset : Z) :
  (let limit := if limit <=? 0 then 50 else limit in
   if limit >? 100 then 100 else limit)
  = (if limit <=? 0 then 50 else if limit >? 100 then 100 else limit)
  /\ 1 <= (if limit <=? 0 then 50 else if limit >? 100 then 100 else limit) <= 100
  /\ 0 <= (if offset <? 0 then 0 else offset).
Proof.
  cbn zeta.
  destruct (Z.leb_spec limit 0), (Z.gtb_spec limit 100), (Z.ltb_spec offset 0);
    cbn; repeat split; try reflexivity; lia.
Qed.

Lemma GetTasks_unfold {V : Type} (r : RepositoryManager V) (env : Env) (w : V)
  (status : string)
  (limit offset : Z) :
  service.GetTasks r env w status limit offset
  = let l := if limit <=? 0 then 50 else if limit >? 100 then 100 else limit in
    let o := if offset <? 0 then 0 else offset in
    let '(w1, listed) :=
      if String.eqb status ""
      then GetAllTasks (InboxRepo r) env w l o
      else GetTasksByStatus (InboxRepo r) env w status l o in
    match listed with
    | Err err => (w1, Err (wrapf "failed to get tasks" err))
    | Ok tasks =>
      let '(w2, stats) := GetTaskStats (InboxRepo r) env w1 in
      (w2, Ok {| Tasks := tasks; Total := Z.of_nat (length tasks);
                 Limit := l; Offset := o;
                 Stats := match stats with Ok st => Some st | Err _ => None end |})
    end.
Proof.
  unfold service.GetTasks. cbn zeta.
  destruct (limit <=? 0); [reflexivity|]. reflexivity.
Qed.

(** C10.  [GetTasks] goes on with a limit of 50 for a limit at most 0, of
    100 for a limit above 100, and an offset of 0 for a negative offset: the
    repository is queried with these values, the call behaves as the call
    with the clamped values, and the response it returns holds them. *)
Theorem GetTasks_clamps (env : Env) (w : W) (log : list Call) (status : string)
  (limit offset : Z) :
  let l := if limit <=? 0 then 50 else if limit >? 100 then 100 else limit in
  let o := if offset <? 0 then 0 else offset in
  1 <= l <= 100 /\ 0 <= o
  /\ service.GetTasks repo env w status limit offset
     = service.GetTasks repo env w status l o
  /\ (exists rest,
        snd (fst (service.GetTasks (traced repo) env (w, log) status limit offset))
        = (log ++ (if String.eqb status ""
                   then CallGetAllTasks l o
                   else CallGetTasksByStatus status l o) :: rest)%list)
  /\ match snd (service.GetTasks repo env w status limit offset) with
     | Ok response => Limit response = l /\ Offset response = o
     | Err _ => True
     end.
Proof.
  intros l o.
  destruct (GetTasks_effective limit offset) as (_ & Hl & Ho).
  fold l in Hl. fold o in Ho.
  split; [exact Hl|]. split; [exact Ho|].
  split; [|split].
  - rewrite !GetTasks_unfold. cbn zeta. fold l o.
    replace (if l <=? 0 then 50 else if l >? 100 then 100 else l) with l.
    2:{ destruct (Z.leb_spec l 0), (Z.gtb_spec l 100); lia. }
    replace (if o <? 0 then 0 else o) with o.
    2:{ destruct (Z.ltb_spec o 0); lia. }
    reflexivity.
  - rewrite GetTasks_unfold. cbn zeta. fold l o.
    destruct (String.eqb status ""); cbn; unfold logged; cbn.
    + destruct (GetAllTasks (InboxRepo repo) env w l o) as [w1 [tasks|err]]; cbn.
      * unfold logged. cbn.
        destruct (GetTaskStats (InboxRepo repo) env w1) as [w2 stats]. cbn.
        exists [CallGetTaskStats]. rewrite <- app_assoc. reflexivity.
      * exists []. reflexivity.
    + destruct (GetTasksByStatus (InboxRepo repo) env w status l o) as [w1 [tasks|err]]; cbn.
      * unfold logged. cbn.
        destruct (GetTaskStats (InboxRepo repo) env w1) as [w2 stats]. cbn.
        exists [CallGetTaskStats]. rewrite <- app_assoc. reflexivity.
      * exists []. reflexivity.
  - rewrite GetTasks_unfold. cbn zeta. fold l o.
    destruct (if String.eqb status "" then _ else _) as [w1 [tasks|err]]; [|exact I].
    destruct (GetTaskStats (InboxRepo repo) env w1) as [w2 stats]. cbn.
    split; reflexivity.
Qed.

End service_facts.

(** ** The worker on the in-memory repository *)

Section mock_worker_facts.
Import models repository service.
Context `{JSON}.
Variable wk : InboxWorker.

Lemma range_singleton (env : Env) (id : string) (t : InboxTask) :
  range_valid env -> range env {[id := t]} = [(id, t)].
Proof.
  intros Hv. specialize (Hv {[id := t]}). rewrite map_to_list_singleton in Hv.
  apply Permutation_singleton_r in Hv. exact Hv.
Qed.

(** One tick on a store holding one pending task whose apply fails. *)
Lemma tick_failing (envs : Env * Env) (r : MockRepository) (t : InboxTask)
  (k : Z) (e : string) :
  range_valid (fst envs) -> 1 <= batchSize wk ->
  holds_only r t -> Status t = TaskStatusPending -> Retries t = k ->
  always_fails r t e ->
  exists t',
    holds_only (tick Mock.manager wk r envs) t'
    /\ records (tick Mock.manager wk r envs) = records r
    /\ retried t t' (wrap64 (k + 1))
         (if k >=? maxRetries wk then TaskStatusFailed else TaskStatusPending) e.
Proof.
  destruct envs as [env env']. cbn [fst].
  intros Hv Hb Hr Hp Hk Hfail. unfold holds_only in Hr.
  unfold tick, processTasks. cbn [fst snd InboxRepo Mock.manager repository.GetPendingTasks].
  rewrite Mock_GetPendingTasks_eq, Hr, (range_singleton _ _ _ Hv).
  cbn [fmap list_fmap snd]. rewrite filter_cons_True by exact Hp. rewrite filter_nil.
  replace (Z.to_nat (batchSize wk)) with (S (Z.to_nat (batchSize wk) - 1))%nat by lia.
  cbn [take foldl]. rewrite take_nil.
  unfold processTask. rewrite (Hfail env r t) by reflexivity.
  unfold handleTaskError.
  cbn [InboxRepo Mock.manager repository.IncrementTaskRetries repository.UpdateTaskStatus].
  unfold Mock.IncrementTaskRetries. rewrite Hr, lookup_singleton_eq.
  rewrite insert_singleton_eq. rewrite Hk.
  destruct (k >=? maxRetries wk).
  - unfold Mock.UpdateTaskStatus. cbn [inboxTasks records].
    rewrite lookup_singleton_eq, insert_singleton_eq. cbn.
    exists {| ID := ID t; Operation := Operation t; Payload := Payload t;
              Status := TaskStatusFailed; CreatedAt := CreatedAt t;
              UpdatedAt := now env; Retries := wrap64 (k + 1); Error := e |}.
    split; [reflexivity|]. split; [reflexivity|].
    unfold retried. cbn. repeat split; reflexivity.
  - match goal with
    | |- context [option_list (Some ?x)] => change (option_list (Some x)) with [x]
    end.
    cbn [app foldl]. unfold fireRetry.
    cbn [InboxRepo Mock.manager repository.UpdateTaskStatus timer_task timer_error].
    unfold Mock.UpdateTaskStatus. cbn [inboxTasks records].
    rewrite lookup_singleton_eq, insert_singleton_eq. cbn.
    exists {| ID := ID t; Operation := Operation t; Payload := Payload t;
              Status := TaskStatusPending; CreatedAt := CreatedAt t;
              UpdatedAt := now env'; Retries := wrap64 (k + 1); Error := e |}.
    split; [reflexivity|]. split; [reflexivity|].
    unfold retried. cbn. repeat split; reflexivity.
Qed.


Lemma always_fails_retried (r r' : MockRepository) (t t' : InboxTask)
  (k : Z) (status err e : string) :
  always_fails r t e -> records r' = records r -> retried t t' k status err ->
  always_fails r' t' e.
Proof.
  intros Hf Hr (_ & Hop & Hpl & _) env r'' t'' Hr'' Hop'' Hpl''.
  apply Hf; congruence.
Qed.

Lemma retried_trans (t t1 t2 : InboxTask) (k1 k2 : Z) (s1 s2 e1 e2 : string) :
  retried t t1 k1 s1 e1 -> retried t1 t2 k2 s2 e2 -> retried t t2 k2 s2 e2.
Proof.
  unfold retried. intros (? & ? & ? & ? & _) (? & ? & ? & ? & ? & ? & ?).
  repeat split; congruence.
Qed.

(** Successive ticks on a store holding one pending task whose apply always
    fails: each tick adds one to the retry counter, and the task stays
    [pending] until a tick finds the counter at [maxRetries] or above. *)
Lemma ticks_failing (envs : list (Env * Env)) (r : MockRepository) (t : InboxTask)
  (k : Z) (e : string) :
  Forall (fun ee => range_valid (fst ee)) envs -> 1 <= batchSize wk ->
  holds_only r t -> Status t = TaskStatusPending -> Retries t = k ->
  0 <= k <= maxRetries wk -> k + Z.of_nat (length envs) <= maxRetries wk + 1 ->
  maxRetries wk < 2 ^ 63 - 1 ->
  always_fails r t e ->
  exists t',
    holds_only (ticks Mock.manager wk r envs) t'
    /\ records (ticks Mock.manager wk r envs) = records r
    /\ retried t t' (k + Z.of_nat (length envs))
         (if k + Z.of_nat (length envs) >? maxRetries wk
          then TaskStatusFailed else TaskStatusPending)
         (match envs with [] => Error t | _ => e end).
Proof.
  revert r t k. induction envs as [|ee envs IH]; intros r t k Hv Hb Hr Hp Hk Hk0 Hlen Hmax Hf.
  - cbn. exists t. split; [exact Hr|]. split; [reflexivity|].
    rewrite Z.add_0_r. destruct (Z.gtb_spec k (maxRetries wk)); [lia|].
    unfold retried. repeat split; assumption.
  - cbn [length] in Hlen. rewrite Nat2Z.inj_succ in Hlen.
    apply Forall_cons in Hv as [Hv1 Hv].
    destruct (tick_failing ee r t k e Hv1 Hb Hr Hp Hk Hf) as (t1 & Hr1 & Hrec1 & Hret1).
    rewrite wrap64_small in Hret1 by lia.
    cbn [ticks foldl]. fold (ticks Mock.manager wk (tick Mock.manager wk r ee) envs).
    destruct envs as [|ee' envs].
    + cbn [ticks foldl length]. exists t1. split; [exact Hr1|]. split; [exact Hrec1|].
      replace (k + Z.of_nat 1) with (k + 1) by lia.
      destruct (Z.geb_spec k (maxRetries wk)), (Z.gtb_spec (k + 1) (maxRetries wk));
        try lia; exact Hret1.
    + assert (Hlt : k < maxRetries wk) by (cbn [length] in Hlen; lia).
      destruct (Z.geb_spec k (maxRetries wk)); [lia|].
      destruct Hret1 as (Hid & Hop & Hpl & Hcr & Hk1 & Hs1 & He1).
      destruct (IH (tick Mock.manager wk r ee) t1 (k + 1)) as (t' & Hr' & Hrec' & Hret');
        try assumption; try lia.
      { eapply always_fails_retried; [exact Hf|exact Hrec1|].
        unfold retried. repeat split; eassumption. }
      exists t'. split; [exact Hr'|]. split; [congruence|].
      replace (k + Z.of_nat (length (ee :: ee' :: envs)))
        with (k + 1 + Z.of_nat (length (ee' :: envs))) by (cbn [length]; lia).
      eapply retried_trans; [|exact Hret'].
      unfold retried. repeat split; eassumption.
Qed.


Lemma invalid_operation_applyTask {W : Type} (repo : RepositoryManager W)
  (env : Env) (w : W) (task : InboxTask) :
  Operation task <> TaskOperationInsert ->
  Operation task <> TaskOperationUpdate ->
  Operation task <> TaskOperationDelete ->
  applyTask repo env w task = (w, Some ErrInvalidTaskOperation).
Proof.
  intros Hi Hu Hd. unfold applyTask.
  apply String.eqb_neq in Hi, Hu, Hd. rewrite Hi, Hu, Hd. reflexivity.
Qed.

Lemma invalid_operation_always_fails (r : MockRepository) (t : InboxTask) :
  Operation t <> TaskOperationInsert ->
  Operation t <> TaskOperationUpdate ->
  Operation t <> TaskOperationDelete ->
  always_fails r t ErrInvalidTaskOperation.
Proof.
  intros Hi Hu Hd env r' t' _ Hop _.
  apply invalid_operation_applyTask; rewrite Hop; assumption.
Qed.

Lemma update_missing_always_fails (r : MockRepository) (t : InboxTask)
  (id : string) (value : Document) :
  Operation t = TaskOperationUpdate ->
  UnmarshalValuePayload (Payload t) = Ok (id, value) ->
  records r !! id = None ->
  always_fails r t (wrapf "failed to update record" (not_found id)).
Proof.
  intros Hop Hdec Hnone env r' t' Hrec Hop' Hpl'.
  unfold applyTask. rewrite Hop', Hop. cbn [String.eqb TaskOperationUpdate TaskOperationInsert].
  change (String.eqb TaskOperationUpdate TaskOperationInsert) with false.
  change (String.eqb TaskOperationUpdate TaskOperationUpdate) with true.
  cbn match. unfold processUpdateTask. rewrite Hpl', Hdec.
  cbn [RecordRepo Mock.manager repository.Update]. unfold Mock.Update.
  cbn [Record_ID]. rewrite Hrec, Hnone. reflexivity.
Qed.

(** On the in-memory repository an insert task for an identifier that has a
    record meets the duplicate key, and succeeds exactly when the stored
    value marshals to the bytes of the new one; the store is left as it is. *)
Lemma Mock_processInsertTask_existing (env : Env) (r : MockRepository)
  (payload id : string) (value : Document) (existingRecord : Record_) :
  UnmarshalValuePayload payload = Ok (id, value) ->
  records r !! id = Some existingRecord ->
  processInsertTask Mock.manager env r payload
  = (r, if String.eqb (bytes_of (Marshal (Record_Value existingRecord)))
                      (bytes_of (Marshal value))
        then None else Some (different_value id)).
Proof.
  intros Hdec Hl. unfold processInsertTask. rewrite Hdec.
  cbn [RecordRepo Mock.manager repository.Insert repository.Get Record_ID Record_Value].
  unfold Mock.Insert, Mock.Get. cbn [Record_ID Record_Value].
  rewrite Hl, String.eqb_refl, Hl. cbn [Record_Value].
  destruct (String.eqb _ _); reflexivity.
Qed.

(** C2 (amended).  On the in-memory repository, for a task that is in the
    store, [handleTaskError] adds one to the stored retry counter; when the
    counter of the fetched copy (the value before the increment) is at or
    above [maxRetries] it sets the task to [failed] with the error as last
    error and starts no timer; otherwise it leaves the status as it is and
    starts the retry timer, which sets the task to [pending] with the error
    as last error.  Consequently, when ticks follow one another with the
    retry timer firing in between, a lone task whose apply always fails is
    [pending] with as many retries as ticks for the first [maxRetries]
    ticks, and [failed] with [maxRetries + 1] retries after the next. *)
Theorem handleTaskError_retry_accounting :
  (forall (env env' : Env) (r : MockRepository) (task stored : InboxTask) (e : string),
     inboxTasks r !! ID task = Some stored ->
     records (fst (handleTaskError Mock.manager wk env r task e)) = records r
     /\ (exists stored',
           inboxTasks (fst (handleTaskError Mock.manager wk env r task e))
           = <[ID task := stored']> (inboxTasks r)
           /\ retried stored stored' (wrap64 (Retries stored + 1))
                (if Retries task >=? maxRetries wk then TaskStatusFailed else Status stored)
                (if Retries task >=? maxRetries wk then e else Error stored))
     /\ (if Retries task >=? maxRetries wk
         then snd (handleTaskError Mock.manager wk env r task e) = None
         else snd (handleTaskError Mock.manager wk env r task e)
              = Some {| timer_task := ID task; timer_error := e;
                        timer_delay := retryDelay wk |}
              /\ exists stored'',
                   inboxTasks (fireRetry Mock.manager env'
                                 (fst (handleTaskError Mock.manager wk env r task e))
                                 {| timer_task := ID task; timer_error := e;
                                    timer_delay := retryDelay wk |})
                   = <[ID task := stored'']> (inboxTasks r)
                   /\ retried stored stored'' (wrap64 (Retries stored + 1))
                        TaskStatusPending e))
  /\ (forall (envs : list (Env * Env)) (r : MockRepository) (t : InboxTask) (e : string),
        Forall (fun ee => range_valid (fst ee)) envs -> 1 <= batchSize wk ->
        holds_only r t -> Status t = TaskStatusPending -> Retries t = 0 ->
        0 <= maxRetries wk < 2 ^ 63 - 1 ->
        Z.of_nat (length envs) <= maxRetries wk + 1 ->
        always_fails r t e ->
        exists t',
          holds_only (ticks Mock.manager wk r envs) t'
          /\ Retries t' = Z.of_nat (length envs)
          /\ Status t' = (if Z.of_nat (length envs) =? maxRetries wk + 1
                          then TaskStatusFailed else TaskStatusPending)
          /\ (Z.of_nat (length envs) = maxRetries wk + 1 -> Error t' = e)).
Proof.
  split.
  - intros env env' r task stored e Hl.
    unfold handleTaskError.
    cbn [InboxRepo Mock.manager repository.IncrementTaskRetries repository.UpdateTaskStatus].
    unfold Mock.IncrementTaskRetries. rewrite Hl.
    destruct (Retries task >=? maxRetries wk).
    + unfold Mock.UpdateTaskStatus. cbn [inboxTasks records].
      rewrite lookup_insert_eq, insert_insert_eq. cbn [fst snd records inboxTasks].
      split; [reflexivity|]. split; [|reflexivity].
      eexists. split; [reflexivity|]. unfold retried. cbn. repeat split; reflexivity.
    + cbn [fst snd records inboxTasks].
      split; [reflexivity|]. split; [|split; [reflexivity|]].
      * eexists. split; [reflexivity|]. unfold retried. cbn. repeat split; reflexivity.
      * unfold fireRetry.
        cbn [InboxRepo Mock.manager repository.UpdateTaskStatus timer_task timer_error].
        unfold Mock.UpdateTaskStatus. cbn [inboxTasks records].
        rewrite lookup_insert_eq, insert_insert_eq. cbn [fst snd records inboxTasks].
        eexists. split; [reflexivity|]. unfold retried. cbn. repeat split; reflexivity.
  - intros envs r t e Hv Hb Hr Hp Hk Hmax Hlen Hf.
    destruct (ticks_failing envs r t 0 e) as (t' & Hr' & _ & Hret); try assumption; try lia.
    exists t'. split; [exact Hr'|].
    destruct Hret as (_ & _ & _ & _ & Hk' & Hs' & He').
    rewrite Z.add_0_l in Hk', Hs'.
    split; [exact Hk'|]. split.
    + rewrite Hs'.
      destruct (Z.gtb_spec (Z.of_nat (length envs)) (maxRetries wk)),
        (Z.eqb_spec (Z.of_nat (length envs)) (maxRetries wk + 1)); try lia; reflexivity.
    + intros Hn. destruct envs; [cbn in Hn; lia|exact He'].
Qed.

(** C8.  For a task whose operation is none of insert, update, delete,
    applying it fails at once with [ErrInvalidTaskOperation], leaving every
    repository untouched, and [processTask] hands that error to
    [handleTaskError] like any other; on the in-memory repository, with ticks
    following one another, each tick adds one to the retry counter and the
    task is [failed], with that error, after [maxRetries + 1] ticks. *)
Theorem invalid_operation_retried (task : InboxTask) :
  Operation task <> TaskOperationInsert ->
  Operation task <> TaskOperationUpdate ->
  Operation task <> TaskOperationDelete ->
  (forall (W : Type) (repo : RepositoryManager W) (env : Env) (w : W),
     applyTask repo env w task = (w, Some ErrInvalidTaskOperation)
     /\ processTask repo wk env w task
        = handleTaskError repo wk env w task ErrInvalidTaskOperation)
  /\ (forall (envs : list (Env * Env)) (r : MockRepository),
        Forall (fun ee => range_valid (fst ee)) envs -> 1 <= batchSize wk ->
        holds_only r task -> Status task = TaskStatusPending -> Retries task = 0 ->
        0 <= maxRetries wk < 2 ^ 63 - 1 ->
        1 <= Z.of_nat (length envs) <= maxRetries wk + 1 ->
        exists t',
          holds_only (ticks Mock.manager wk r envs) t'
          /\ records (ticks Mock.manager wk r envs) = records r
          /\ Retries t' = Z.of_nat (length envs)
          /\ Error t' = ErrInvalidTaskOperation
          /\ Status t' = (if Z.of_nat (length envs) =? maxRetries wk + 1
                          then TaskStatusFailed else TaskStatusPending)).
Proof.
  intros Hi Hu Hd. split.
  - intros W repo env w.
    pose proof (invalid_operation_applyTask repo env w task Hi Hu Hd) as Ha.
    split; [exact Ha|]. unfold processTask. rewrite Ha. reflexivity.
  - intros envs r Hv Hb Hr Hp Hk Hmax Hlen.
    destruct (ticks_failing envs r task 0 ErrInvalidTaskOperation)
      as (t' & Hr' & Hrec' & Hret); try assumption; try lia.
    { apply invalid_operation_always_fails; assumption. }
    exists t'. split; [exact Hr'|]. split; [exact Hrec'|].
    destruct Hret as (_ & _ & _ & _ & Hk' & Hs' & He').
    rewrite Z.add_0_l in Hk', Hs'.
    split; [exact Hk'|]. split.
    + destruct envs; [cbn in Hlen; lia|exact He'].
    + rewrite Hs'.
      destruct (Z.gtb_spec (Z.of_nat (length envs)) (maxRetries wk)),
        (Z.eqb_spec (Z.of_nat (length envs)) (maxRetries wk + 1)); try lia; reflexivity.
Qed.

End mock_worker_facts.

(** ** The service and the worker on concrete stores *)

Section service_examples.
Import models repository service examples.

Lemma four_ticks_valid : Forall (fun ee => range_valid (fst ee)) four_ticks.
Proof. repeat constructor; apply range_valid_env_at. Qed.

(** C2, counterexample: with [maxRetries] 3, a failure of a task fetched
    with 2 retries leaves the stored counter at 3, at [maxRetries], and the
    task [pending] with a retry timer started, not [failed]; and a lone task
    whose update always fails is [failed] with 4 retries, not 3. *)
Lemma handleTaskError_compares_fetched_retries :
  (exists stored',
     inboxTasks (fst (handleTaskError Mock.manager default_worker (env_at 5)
                        retried_twice twice_retried "boom")) !! "t1" = Some stored'
     /\ Retries stored' = 3
     /\ maxRetries default_worker <= Retries stored'
     /\ Status stored' = TaskStatusPending)
  /\ snd (handleTaskError Mock.manager default_worker (env_at 5)
            retried_twice twice_retried "boom")
     = Some {| timer_task := "t1"; timer_error := "boom";
               timer_delay := retryDelay default_worker |}
  /\ (exists t',
        inboxTasks (ticks Mock.manager default_worker lone_update four_ticks) !! "t1"
        = Some t'
        /\ Status t' = TaskStatusFailed
        /\ Retries t' = 4
        /\ Retries t' <> maxRetries default_worker).
Proof.
  split; [|split].
  - eexists. split; [vm_compute; reflexivity|]. cbn.
    split; [reflexivity|]. split; [lia|reflexivity].
  - vm_compute. reflexivity.
  - eexists. split; [vm_compute; reflexivity|]. cbn.
    split; [reflexivity|]. split; [reflexivity|lia].
Qed.

Lemma u1_payload_decodes : UnmarshalValuePayload u1_payload = Ok ("u1", "{}").
Proof. vm_compute. reflexivity. Qed.

Lemma lone_update_always_fails :
  always_fails lone_update (pending_task "t1" TaskOperationUpdate u1_payload 1)
    (wrapf "failed to update record" (not_found "u1")).
Proof.
  apply (@update_missing_always_fails text_json _ _ "u1" ("{}" : @Document text_json)).
  - reflexivity.
  - exact u1_payload_decodes.
  - reflexivity.
Qed.

(** The retry accounting on the example stores. *)
Lemma handleTaskError_retry_accounting_witness :
  (records (fst (handleTaskError Mock.manager default_worker (env_at 5)
                   retried_twice twice_retried "boom")) = records retried_twice
   /\ (exists stored',
         inboxTasks (fst (handleTaskError Mock.manager default_worker (env_at 5)
                            retried_twice twice_retried "boom"))
         = <[ID twice_retried := stored']> (inboxTasks retried_twice)
         /\ retried twice_retried stored' (wrap64 (Retries twice_retried + 1))
              (if Retries twice_retried >=? maxRetries default_worker
               then TaskStatusFailed else Status twice_retried)
              (if Retries twice_retried >=? maxRetries default_worker
               then "boom" else Error twice_retried))
   /\ (if Retries twice_retried >=? maxRetries default_worker
       then snd (handleTaskError Mock.manager default_worker (env_at 5)
                   retried_twice twice_retried "boom") = None
       else snd (handleTaskError Mock.manager default_worker (env_at 5)
                   retried_twice twice_retried "boom")
            = Some {| timer_task := ID twice_retried; timer_error := "boom";
                      timer_delay := retryDelay default_worker |}
            /\ exists stored'',
                 inboxTasks (fireRetry Mock.manager (env_at 10)
                               (fst (handleTaskError Mock.manager default_worker (env_at 5)
                                       retried_twice twice_retried "boom"))
                               {| timer_task := ID twice_retried; timer_error := "boom";
                                  timer_delay := retryDelay default_worker |})
                 = <[ID twice_retried := stored'']> (inboxTasks retried_twice)
                 /\ retried twice_retried stored'' (wrap64 (Retries twice_retried + 1))
                      TaskStatusPending "boom"))
  /\ (exists t',
        holds_only (ticks Mock.manager default_worker lone_update four_ticks) t'
        /\ Retries t' = Z.of_nat (length four_ticks)
        /\ Status t' = (if Z.of_nat (length four_ticks) =? maxRetries default_worker + 1
                        then TaskStatusFailed else TaskStatusPending)
        /\ (Z.of_nat (length four_ticks) = maxRetries default_worker + 1 ->
            Error t' = wrapf "failed to update record" (not_found "u1"))).
Proof.
  split.
  - apply (proj1 (handleTaskError_retry_accounting default_worker)
             (env_at 5) (env_at 10) retried_twice twice_retried twice_retried "boom").
    reflexivity.
  - apply (proj2 (handleTaskError_retry_accounting default_worker)
             four_ticks lone_update (pending_task "t1" TaskOperationUpdate u1_payload 1)).
    + exact four_ticks_valid.
    + cbn. lia.
    + reflexivity.
    + reflexivity.
    + reflexivity.
    + cbn. lia.
    + cbn. lia.
    + exact lone_update_always_fails.
Defined.

(** The unknown operation [merge] on the example store. *)
Lemma invalid_operation_retried_witness :
  (forall (W : Type) (repo : RepositoryManager W) (env : Env) (w : W),
     applyTask repo env w (pending_task "t1" "merge" u1_payload 1)
     = (w, Some ErrInvalidTaskOperation)
     /\ processTask repo default_worker env w (pending_task "t1" "merge" u1_payload 1)
        = handleTaskError repo default_worker env w
            (pending_task "t1" "merge" u1_payload 1) ErrInvalidTaskOperation)
  /\ (exists t',
        holds_only (ticks Mock.manager default_worker lone_unknown four_ticks) t'
        /\ records (ticks Mock.manager default_worker lone_unknown four_ticks)
           = records lone_unknown
        /\ Retries t' = Z.of_nat (length four_ticks)
        /\ Error t' = ErrInvalidTaskOperation
        /\ Status t' = (if Z.of_nat (length four_ticks) =? maxRetries default_worker + 1
                        then TaskStatusFailed else TaskStatusPending)).
Proof.
  destruct (invalid_operation_retried default_worker
              (pending_task "t1" "merge" u1_payload 1)) as [Hgen Hmock];
    [discriminate|discriminate|discriminate|].
  split; [exact Hgen|].
  apply (Hmock four_ticks lone_unknown).
  - exact four_ticks_valid.
  - cbn. lia.
  - reflexivity.
  - reflexivity.
  - reflexivity.
  - cbn. lia.
  - cbn. lia.
Defined.

(** The four ticks of the example leave the unknown task failed. *)
Example invalid_operation_four_ticks :
  inboxTasks (ticks Mock.manager default_worker lone_unknown four_ticks) !! "t1"
  = Some {| ID := "t1"; Operation := "merge"; Payload := u1_payload;
            Status := TaskStatusFailed; CreatedAt := 1; UpdatedAt := 40;
            Retries := 4; Error := "invalid task operation" |}.
Proof. vm_compute. reflexivity. Qed.

(** An insert for the record the example store already has. *)
Lemma processInsertTask_duplicate_key_witness :
  (bytes_of (Marshal (Record_Value record_u1))
   = bytes_of (Marshal "{}") ->
   processInsertTask Mock.manager (env_at 1) with_u1 u1_payload = (with_u1, None))
  /\ (bytes_of (Marshal (Record_Value record_u1))
      <> bytes_of (Marshal "{}") ->
      processInsertTask Mock.manager (env_at 1) with_u1 u1_payload
      = (with_u1, Some (different_value "u1")))
  /\ different_value "u1" <> already_exists "u1"
  /\ different_value "u1" <> ErrInvalidTaskOperation
  /\ (forall msg, different_value "u1" <> wrapf "failed to unmarshal insert payload" msg)
  /\ (forall msg, different_value "u1" <> wrapf "failed to verify existing record" msg)
  /\ (forall msg, different_value "u1" <> wrapf "failed to insert record" msg).
Proof.
  apply (@processInsertTask_duplicate_key text_json _ Mock.manager (env_at 1)
           with_u1 with_u1 with_u1 u1_payload "u1" ("{}" : @Document text_json)
           record_u1).
  - exact u1_payload_decodes.
  - reflexivity.
  - reflexivity.
Defined.

(** An insert of the value already stored succeeds, one of another value
    fails with the conflict error; the store is not changed by either. *)
Example processInsertTask_examples :
  processInsertTask Mock.manager (env_at 1) with_u1 u1_payload = (with_u1, None)
  /\ processInsertTask Mock.manager (env_at 1) with_u1
       (bytes_of (MarshalValuePayload "u1" "{}  "))
     = (with_u1,
        Some "record with id 'u1' already exists but with different value").
Proof. split; vm_compute; reflexivity. Qed.

(** [Insert] of the service for [u2] on the example store, its calls logged. *)
Lemma producer_only_enqueues_witness :
  exists calls : list Call,
    snd (fst (service.Insert (traced Mock.manager) (env_at 7) (with_u1, []) request_u2))
    = ([] ++ calls)%list
    /\ calls = [CallCreateTask (newTask (env_at 7) TaskOperationInsert u2_payload)]
    /\ snd (service.Insert (traced Mock.manager) (env_at 7) (with_u1, []) request_u2)
       = None.
Proof.
  destruct (proj1 (producer_only_enqueues Mock.manager) request_u2 (env_at 7) with_u1 [])
    as (calls & Hlog & _ & Hok & Hcalls & _).
  exists calls. split; [exact Hlog|]. split.
  - apply (Hcalls u2_payload). reflexivity.
  - apply Hok. exists u2_payload. split; reflexivity.
Defined.

(** [Insert] of the service on the in-memory repository: the task is stored
    as pending, the records are not touched. *)
Example Insert_example :
  service.Insert Mock.manager (env_at 7) with_u1
    {| Request_ID := "u2"; Request_Value := "{}" |}
  = ({| records := records with_u1;
        inboxTasks :=
          {["task-1" := {| ID := "task-1"; Operation := "insert";
                           Payload := bytes_of (MarshalValuePayload "u2" "{}");
                           Status := "pending"; CreatedAt := 7; UpdatedAt := 7;
                           Retries := 0; Error := "" |}]} |}, None).
Proof. vm_compute. reflexivity. Qed.

(** Two pollers fetch one after the other, before either has processed:
    both are handed the delete task.  The first applies it and marks it
    completed; the second applies it again, fails on the record the first
    one removed, and its retry timer puts the completed task back to
    [pending], with one retry and the error on record. *)
Example two_pollers_apply_twice :
  snd (Mock.GetPendingTasks (env_at 10) with_delete_u1 10) = Ok [delete_u1_task]
  /\ snd (Mock.GetPendingTasks (env_at 11)
            (fst (Mock.GetPendingTasks (env_at 10) with_delete_u1 10)) 10)
     = Ok [delete_u1_task]
  /\ exists (r1 r2 : MockRepository) (timer : RetryTimer),
       processTask Mock.manager default_worker (env_at 12) with_delete_u1 delete_u1_task
       = (r1, None)
       /\ records r1 !! "u1" = None
       /\ Status <$> inboxTasks r1 !! "t1" = Some TaskStatusCompleted
       /\ processTask Mock.manager default_worker (env_at 13) r1 delete_u1_task
          = (r2, Some timer)
       /\ inboxTasks (fireRetry Mock.manager (env_at 18) r2 timer) !! "t1"
          = Some {| ID := "t1"; Operation := TaskOperationDelete;
                    Payload := delete_u1_payload; Status := TaskStatusPending;
                    CreatedAt := 1; UpdatedAt := 18; Retries := 1;
                    Error := "failed to delete record: record with id 'u1' not found" |}.
Proof.
  split; [vm_compute; reflexivity|].
  split; [vm_compute; reflexivity|].
  eexists _, _, _.
  split; [vm_compute; reflexivity|].
  split; [vm_compute; reflexivity|].
  split; [vm_compute; reflexivity|].
  split; [vm_compute; reflexivity|].
  vm_compute; reflexivity.
Qed.

End service_examples.
